(** * Krea AI MCP server: the job gateway and its poll-until-terminal loop

    A shallow embedding of [services/krea-client.ts] (the [KreaClient]
    class), of the part of [services/formatters.ts], [schemas/index.ts] and
    [tools/index.ts] that the deletion tools use, and of the declarations of
    [types.ts] they rely on.

    Conventions of the embedding.
    - TypeScript interfaces are records, string-literal unions are inductive
      types, optional members and optional arguments are [option]s.
    - JavaScript numbers that count milliseconds, HTTP statuses and
      pagination values are integers ([Z]).
    - Strings are Rocq strings holding UTF-8 bytes.
    - The asynchronous code is sequential (every promise is awaited as soon
      as it is made), so it is written in state-passing style over a
      [World]: the clock read by [Date.now()], the behaviour of the network,
      and a log of the calls made to [fetch] and [setTimeout].
    - The [while] loop of [waitForJob] is a [Fixpoint] on a fuel argument;
      running out of fuel is [None], and the theorems that claim a result
      show that a stated amount of fuel is enough.
    - A parsed body is a value of the response type [T] of the call, as the
      casts [as T] of the source have it. [request] is generic in [T], so a
      body that may be the JSON value [null] is a body of type [option T];
      the wait loop is given a second time with the bodies of its polls read
      that way ([waitForJob_raw]), and shown to be the first on worlds
      whose bodies are all jobs. *)

From Stdlib Require Import ZArith List String Ascii Bool Lia DecimalString.
Import ListNotations.

Set Warnings "-register-all".

Local Open Scope string_scope.
Local Open Scope Z_scope.

(* ========================================================================= *)
(** ** The JavaScript runtime the client runs on *)
(* ========================================================================= *)

Module Js.

(** An [Error] object, as far as the code inspects it. *)
Record Error := { name : string; message : string }.

(** A thrown value: [err instanceof Error] or anything else. *)
Inductive Thrown :=
| ThrownError (e : Error)
| ThrownOther.

(** A call either returns or throws (a rejected promise, once awaited). *)
Inductive Completion (A : Type) :=
| Returned (a : A)
| Threw (e : Thrown).
Arguments Returned {A} a.
Arguments Threw {A} e.

(** Values placed in a request body. *)
Inductive Value :=
| Undefined
| Null
| Boolean (b : bool)
| Number (n : Z)
| Str (s : string)
| Array (items : list Value)
| Object (members : list (string * Value)).

(** [String(n)] for an integer. *)
Definition string_of_Z (n : Z) : string :=
  NilZero.string_of_int (Z.to_int n).

(** Truthiness, the test made by [v ? a : b] and [v || d]. *)
Definition truthy (v : Value) : bool :=
  match v with
  | Undefined | Null => false
  | Boolean b => b
  | Number n => negb (n =? 0)
  | Str s => negb (s =? "")%string
  | Array _ | Object _ => true
  end.

(** [{ ...o, k: v }]: an existing key keeps its place and takes the new
    value, a new key goes last. *)
Fixpoint assign (k : string) (v : Value) (o : list (string * Value))
  : list (string * Value) :=
  match o with
  | [] => [(k, v)]
  | (k', v') :: o' =>
      if (k' =? k)%string then (k, v) :: o' else (k', v') :: assign k v o'
  end.

(** The delay a timer really gets: Node replaces a delay below 1 or above
    2^31-1 by 1. *)
Definition timer_delay (ms : Z) : Z :=
  if (ms <? 1) || (2147483647 <? ms) then 1 else ms.

(** [s.replace(/\/$/, "")]: drop one trailing slash. *)
Fixpoint strip_trailing_slash (s : string) : string :=
  match s with
  | EmptyString => EmptyString
  | String a EmptyString => if (a =? "/")%char then EmptyString else s
  | String a s' => String a (strip_trailing_slash s')
  end.

(** UTF-16 code units contributed by one UTF-8 byte: continuation bytes
    count for nothing, the lead byte of a 4-byte sequence for two. *)
Definition units_of_byte (a : ascii) : nat :=
  let n := nat_of_ascii a in
  if (n <? 128)%nat then 1%nat
  else if (n <? 192)%nat then 0%nat
  else if (n <? 240)%nat then 1%nat
  else 2%nat.

(** [s.length] *)
Fixpoint length (s : string) : Z :=
  match s with
  | EmptyString => 0
  | String a s' => Z.of_nat (units_of_byte a) + length s'
  end.

(** [s.substring(0, n)], cutting at character boundaries: a character is
    kept when all its code units fit; a negative [n] counts as 0. *)
Fixpoint substring0 (n : Z) (s : string) : string :=
  match s with
  | EmptyString => EmptyString
  | String a s' =>
      match units_of_byte a with
      | O => String a (substring0 n s')
      | u => if Z.of_nat u <=? n then String a (substring0 (n - Z.of_nat u) s')
             else EmptyString
      end
  end.

(** [o.k] for an own member [k] of an object; [undefined] when the object
    has none. *)
Fixpoint member (k : string) (o : list (string * Value)) : Value :=
  match o with
  | [] => Undefined
  | (k', v) :: o' => if (k' =? k)%string then v else member k o'
  end.

(** [v === s] for a string literal [s]. *)
Definition is_string (v : Value) (s : string) : bool :=
  match v with
  | Str s' => (s' =? s)%string
  | _ => false
  end.

(** [v || d] *)
Definition or_else (v d : Value) : Value :=
  if truthy v then v else d.

End Js.

(* ========================================================================= *)
(** ** types.ts *)
(* ========================================================================= *)

Module Types.

Inductive JobStatus := pending | processing | completed | failed | cancelled.

(** [KreaJobResult]; [assets] and [metadata] are read by no modelled
    code and are left out. *)
Record KreaJobResult := {
  url : option string;
  urls : option (list string)
}.

(** [KreaJob]; [progress], a fraction, is read by no modelled code and is
    left out. *)
Record KreaJob := {
  id : string;
  status : JobStatus;
  type : string;
  createdAt : string;
  updatedAt : string;
  completedAt : option string;
  result : option KreaJobResult;
  error : option string
}.

Definition CHARACTER_LIMIT : Z := 10000.

End Types.

(* ========================================================================= *)
(** ** The world: clock, network and the log of effects *)
(* ========================================================================= *)

Module Net.

(** A URL under construction: the string given to [new URL] and the pairs
    appended to [url.searchParams], in order. *)
Record URL := {
  href : string;
  searchParams : list (string * string)
}.

(** The second argument of [fetch]. *)
Record RequestInit := {
  method : string;
  headers : list (string * string);
  body : option Js.Value
}.

(** What [response.json()] gives when it parses: the body as the call's
    type [T], and the value of its [message] member when it has one that
    is a string. *)
Record Parsed (T : Type) := {
  value : T;
  message : option string
}.
Arguments value {T} _.
Arguments message {T} _.

(** A [Response], as far as the code inspects it. *)
Record Response (T : Type) := {
  ok : bool;
  status : Z;
  json : Js.Thrown + Parsed T
}.
Arguments ok {T} _.
Arguments status {T} _.
Arguments json {T} _.

(** How a [fetch] settles when nothing aborts it. *)
Inductive Settled (T : Type) :=
| Fulfilled (r : Response T)
| Rejected (e : Js.Thrown).
Arguments Fulfilled {T} r.
Arguments Rejected {T} e.

(** One exchange with the remote: how long it takes and how it settles. *)
Record Exchange (T : Type) := {
  latency : Z;
  settles : Settled T
}.
Arguments latency {T} _.
Arguments settles {T} _.

Inductive Event :=
| EvFetch (url : URL) (init : RequestInit)
| EvSleep (ms : Z).

Record World (T : Type) := {
  now : Z;                              (* what [Date.now()] reads *)
  url_error : string -> option Js.Thrown; (* does [new URL(s)] throw? *)
  wire : nat -> Exchange T;             (* the n-th exchange to come *)
  sent : nat;                           (* exchanges made so far *)
  log : list Event                      (* effects so far, oldest first *)
}.
Arguments now {T} _.
Arguments url_error {T} _.
Arguments wire {T} _.
Arguments sent {T} _.
Arguments log {T} _.

Section Effects.
Context {T : Type}.

(** [Date.now()] *)
Definition Date_now (w : World T) : Z * World T := (now w, w).

(** [new URL(s)] *)
Definition new_URL (s : string) (w : World T) : Js.Thrown + URL :=
  match url_error w s with
  | Some e => inl e
  | None => inr {| href := s; searchParams := [] |}
  end.

Definition AbortError : Js.Thrown :=
  Js.ThrownError {| Js.name := "AbortError";
                    Js.message := "This operation was aborted" |}.

(** [await fetch(url, init)] under an [AbortController] whose [abort] is
    scheduled [abortMs] from now: the exchange settles by itself when it
    is faster than the timer, otherwise the call rejects with an
    [AbortError] when the timer fires. *)
Definition fetch (url : URL) (init : RequestInit) (abortMs : Z)
           (w : World T) : Settled T * World T :=
  let x := wire w (sent w) in
  let after (d : Z) :=
    {| now := now w + d;
       url_error := url_error w;
       wire := wire w;
       sent := S (sent w);
       log := log w ++ [EvFetch url init] |} in
  if latency x <? Js.timer_delay abortMs
  then (settles x, after (latency x))
  else (Rejected AbortError, after (Js.timer_delay abortMs)).

(** [await new Promise(resolve => setTimeout(resolve, ms))] *)
Definition sleep (ms : Z) (w : World T) : unit * World T :=
  (tt, {| now := now w + Js.timer_delay ms;
          url_error := url_error w;
          wire := wire w;
          sent := sent w;
          log := log w ++ [EvSleep ms] |}).

End Effects.

End Net.

(* ========================================================================= *)
(** ** services/krea-client.ts *)
(* ========================================================================= *)

Module KreaClient.

Import Net.

Record KreaClientConfig := {
  cfg_apiKey : string;
  cfg_baseUrl : option string;
  cfg_timeout : option Z;
  cfg_webhookUrl : option string
}.

(** The [error] member of an [ApiResponse<T>]; [details] is the parsed body
    of the failed response. *)
Record ApiError (T : Type) := {
  code : string;
  message : string;
  details : option T
}.
Arguments code {T} _.
Arguments message {T} _.
Arguments details {T} _.

Record ApiResponse (T : Type) := {
  success : bool;
  data : option T;
  error : option (ApiError T)
}.
Arguments success {T} _.
Arguments data {T} _.
Arguments error {T} _.

Record ListResponse (T : Type) := {
  items : list T;
  total : Z;
  hasMore : bool;
  nextCursor : option string
}.

(** The private members of the class. *)
Record KreaClient := {
  apiKey : string;
  baseUrl : string;
  timeout : Z;
  webhookUrl : option string
}.

(** [constructor(config)]; [a || b] takes [b] when [a] is undefined, the
    empty string or 0. *)
Definition new_KreaClient (config : KreaClientConfig) : KreaClient :=
  {| apiKey := cfg_apiKey config;
     baseUrl :=
       Js.strip_trailing_slash
         match cfg_baseUrl config with
         | Some u => if (u =? "")%string then "https://api.krea.ai" else u
         | None => "https://api.krea.ai"
         end;
     timeout :=
       match cfg_timeout config with
       | Some t => if t =? 0 then 120000 else t
       | None => 120000
       end;
     webhookUrl := cfg_webhookUrl config |}.

(** A value of a [params] record: [string | number | boolean]; [undefined]
    is [None]. *)
Inductive ParamValue :=
| PString (s : string)
| PNumber (n : Z)
| PBoolean (b : bool).

(** [String(value)] *)
Definition String_ (v : ParamValue) : string :=
  match v with
  | PString s => s
  | PNumber n => Js.string_of_Z n
  | PBoolean b => if b then "true" else "false"
  end.

Definition Params := list (string * option ParamValue).

Record Options := {
  opt_body : option Js.Value;
  opt_params : option Params
}.

(** The [forEach] over [Object.entries(options.params)]: every entry whose
    value is not [undefined] is appended, in order. *)
Fixpoint append_params (url : URL) (params : Params) : URL :=
  match params with
  | [] => url
  | (key, Some value) :: rest =>
      append_params
        {| href := href url;
           searchParams := searchParams url ++ [(key, String_ value)] |}
        rest
  | (_, None) :: rest => append_params url rest
  end.

Section Request.
Context {T : Type}.

(** The [catch (err)] block of [request]. *)
Definition request_catch (err : Js.Thrown) : ApiResponse T :=
  match err with
  | Js.ThrownError e =>
      if (Js.name e =? "AbortError")%string
      then {| success := false; data := None;
              error := Some {| code := "TIMEOUT";
                               message := "Request timed out";
                               details := None |} |}
      else {| success := false; data := None;
              error := Some {| code := "REQUEST_ERROR";
                               message := Js.message e;
                               details := None |} |}
  | Js.ThrownOther =>
      {| success := false; data := None;
         error := Some {| code := "REQUEST_ERROR";
                          message := "Unknown error";
                          details := None |} |}
  end.

(** The URL [request] hands to [fetch]: [new URL] of the base URL and the
    endpoint, then the parameters. *)
Definition request_url (url0 : URL) (options : option Options) : URL :=
  match options with
  | Some {| opt_params := Some params |} => append_params url0 params
  | _ => url0
  end.

(** The second argument [request] hands to [fetch]. *)
Definition request_init (this : KreaClient) (method : string)
           (options : option Options) : RequestInit :=
  {| Net.method := method;
     headers := [("Authorization", "Bearer " ++ apiKey this);
                 ("Content-Type", "application/json");
                 ("Accept", "application/json")];
     body :=
       match options with
       | Some {| opt_body := Some b |} => if Js.truthy b then Some b else None
       | _ => None
       end |}.

(** The [message] of an HTTP error: the body's, or the default when the
    body has none or an empty one. *)
Definition http_error_message (response : Response T) (parsed : Parsed T)
  : string :=
  match Net.message parsed with
  | Some m =>
      if (m =? "")%string
      then "Request failed with status " ++ Js.string_of_Z (status response)
      else m
  | None => "Request failed with status " ++ Js.string_of_Z (status response)
  end.

(** [private async request<T>(method, endpoint, options?)] *)
Definition request (this : KreaClient) (method : string) (endpoint : string)
           (options : option Options) (w : World T)
  : ApiResponse T * World T :=
  match new_URL (baseUrl this ++ endpoint) w with
  | inl err => (request_catch err, w)
  | inr url0 =>
      let url := request_url url0 options in
      let '(settled, w1) :=
        fetch url (request_init this method options) (timeout this) w in
      match settled with
      | Rejected err => (request_catch err, w1)
      | Fulfilled response =>
          match json response with
          | inl err => (request_catch err, w1)
          | inr parsed =>
              if negb (ok response)
              then ({| success := false;
                       data := None;
                       error :=
                         Some {| code := "HTTP_"
                                         ++ Js.string_of_Z (status response);
                                 message := http_error_message response parsed;
                                 details := Some (value parsed) |} |}, w1)
              else ({| success := true;
                       data := Some (value parsed);
                       error := None |}, w1)
          end
      end
  end.

Definition get (this : KreaClient) (endpoint : string)
           (params : option Params) (w : World T) :=
  request this "GET" endpoint
          (Some {| opt_body := None; opt_params := params |}) w.

Definition post (this : KreaClient) (endpoint : string)
           (body : option Js.Value) (w : World T) :=
  request this "POST" endpoint
          (Some {| opt_body := body; opt_params := None |}) w.

Definition patch (this : KreaClient) (endpoint : string)
           (body : option Js.Value) (w : World T) :=
  request this "PATCH" endpoint
          (Some {| opt_body := body; opt_params := None |}) w.

Definition delete (this : KreaClient) (endpoint : string) (w : World T) :=
  request this "DELETE" endpoint None w.

End Request.

(** *** Jobs API *)

Record ListJobsParams := {
  lj_limit : option Z;
  lj_offset : option Z;
  lj_status : option string;
  lj_type : option string
}.

(** [async listJobs(params)] *)
Definition listJobs (this : KreaClient) (params : ListJobsParams)
           (w : World (ListResponse Types.KreaJob)) :=
  get this "/v1/jobs"
      (Some [("limit", option_map PNumber (lj_limit params));
             ("offset", option_map PNumber (lj_offset params));
             ("status",
               match lj_status params with
               | Some s => if negb (s =? "all")%string
                           then Some (PString s) else None
               | None => None
               end);
             ("type", option_map PString (lj_type params))])
      w.

(** [async getJob(jobId)] *)
Definition getJob (this : KreaClient) (jobId : string)
           (w : World Types.KreaJob) :=
  get this ("/v1/jobs/" ++ jobId) None w.

(** The response type [{ deleted: boolean }]. *)
Record Deleted := { deleted : bool }.

(** [async deleteJob(jobId)] *)
Definition deleteJob (this : KreaClient) (jobId : string)
           (w : World Deleted) :=
  delete this ("/v1/jobs/" ++ jobId) w.

(** The test [job.status === "completed" || job.status === "failed" ||
    job.status === "cancelled"]. *)
Definition is_terminal (s : Types.JobStatus) : bool :=
  match s with
  | Types.completed | Types.failed | Types.cancelled => true
  | Types.pending | Types.processing => false
  end.

(** What reading a member of [result.data!] throws when [data] is
    undefined. *)
Definition TypeError_undefined (member : string) : Js.Thrown :=
  Js.ThrownError
    {| Js.name := "TypeError";
       Js.message := "Cannot read properties of undefined (reading '"
                     ++ member ++ "')" |}.

(** The value returned after the loop of [waitForJob]. *)
Definition wait_timed_out (jobId : string) (timeoutMs : Z)
  : ApiResponse Types.KreaJob :=
  {| success := false;
     data := None;
     error :=
       Some {| code := "TIMEOUT";
               message := "Job " ++ jobId ++ " did not complete within "
                          ++ Js.string_of_Z timeoutMs ++ "ms";
               details := None |} |}.

(** The [while] loop of [waitForJob] and the [return] after it; one unit
    of fuel per evaluation of the loop condition. *)
Fixpoint waitForJob_loop (fuel : nat) (this : KreaClient) (jobId : string)
         (startTime timeoutMs pollIntervalMs : Z) (w : World Types.KreaJob)
  : option (Js.Completion (ApiResponse Types.KreaJob)) * World Types.KreaJob :=
  match fuel with
  | O => (None, w)
  | S fuel' =>
      let '(t, w0) := Date_now w in
      if t - startTime <? timeoutMs then
        let '(result, w1) := getJob this jobId w0 in
        if negb (success result) then (Some (Js.Returned result), w1)
        else
          match data result with
          | None => (Some (Js.Threw (TypeError_undefined "status")), w1)
          | Some job =>
              if is_terminal (Types.status job)
              then (Some (Js.Returned result), w1)
              else
                let '(_, w2) := sleep pollIntervalMs w1 in
                waitForJob_loop fuel' this jobId startTime timeoutMs
                                pollIntervalMs w2
          end
      else (Some (Js.Returned (wait_timed_out jobId timeoutMs)), w0)
  end.

(** [async waitForJob(jobId, timeoutMs = 120000, pollIntervalMs = 2000)] *)
Definition waitForJob (fuel : nat) (this : KreaClient) (jobId : string)
           (timeoutMs pollIntervalMs : option Z) (w : World Types.KreaJob) :=
  let timeoutMs := match timeoutMs with Some t => t | None => 120000 end in
  let pollIntervalMs :=
    match pollIntervalMs with Some p => p | None => 2000 end in
  let '(startTime, w0) := Date_now w in
  waitForJob_loop fuel this jobId startTime timeoutMs pollIntervalMs w0.

(** *** Assets API *)

Record ListAssetsParams := {
  la_limit : option Z;
  la_offset : option Z;
  la_type : option string
}.

(** [KreaAsset], as far as it is needed: no modelled code reads it. *)
Record KreaAsset := { asset_id : string; asset_url : string }.

(** [async listAssets(params)] *)
Definition listAssets (this : KreaClient) (params : ListAssetsParams)
           (w : World (ListResponse KreaAsset)) :=
  get this "/v1/assets"
      (Some [("limit", option_map PNumber (la_limit params));
             ("offset", option_map PNumber (la_offset params));
             ("type",
               match la_type params with
               | Some s => if negb (s =? "all")%string
                           then Some (PString s) else None
               | None => None
               end)])
      w.

(** [async deleteAsset(assetId)] *)
Definition deleteAsset (this : KreaClient) (assetId : string)
           (w : World Deleted) :=
  delete this ("/v1/assets/" ++ assetId) w.

(** *** Image and video generation *)

(** [{ ...params, webhook_url: this.webhookUrl }] *)
Definition with_webhook (this : KreaClient)
           (params : list (string * Js.Value)) : Js.Value :=
  Js.Object
    (Js.assign "webhook_url"
               match webhookUrl this with
               | Some u => Js.Str u
               | None => Js.Undefined
               end
               params).

(** [async generateImage(endpoint, params, waitForCompletion = false)] *)
Definition generateImage (fuel : nat) (this : KreaClient) (endpoint : string)
           (params : list (string * Js.Value))
           (waitForCompletion : option bool) (w : World Types.KreaJob)
  : option (Js.Completion (ApiResponse Types.KreaJob)) * World Types.KreaJob :=
  let waitForCompletion :=
    match waitForCompletion with Some b => b | None => false end in
  let body := with_webhook this params in
  let '(result, w1) := post this ("/v1/image/" ++ endpoint) (Some body) w in
  if negb (success result) || negb waitForCompletion
  then (Some (Js.Returned result), w1)
  else
    match data result with
    | None => (Some (Js.Threw (TypeError_undefined "id")), w1)
    | Some job => waitForJob fuel this (Types.id job) None None w1
    end.

(** [async generateVideo(endpoint, params, waitForCompletion = false)] *)
Definition generateVideo (fuel : nat) (this : KreaClient) (endpoint : string)
           (params : list (string * Js.Value))
           (waitForCompletion : option bool) (w : World Types.KreaJob)
  : option (Js.Completion (ApiResponse Types.KreaJob)) * World Types.KreaJob :=
  let waitForCompletion :=
    match waitForCompletion with Some b => b | None => false end in
  let body := with_webhook this params in
  let '(result, w1) := post this ("/v1/video/" ++ endpoint) (Some body) w in
  if negb (success result) || negb waitForCompletion
  then (Some (Js.Returned result), w1)
  else
    match data result with
    | None => (Some (Js.Threw (TypeError_undefined "id")), w1)
    | Some job => waitForJob fuel this (Types.id job) (Some 300000) None w1
    end.

(** [async generateFlux(params, wait = false)] *)
Definition generateFlux (fuel : nat) (this : KreaClient)
           (params : list (string * Js.Value)) (wait : option bool)
           (w : World Types.KreaJob) :=
  let wait := match wait with Some b => b | None => false end in
  let model := Js.or_else (Js.member "model" params) (Js.Str "flux") in
  let endpoint :=
    if Js.is_string model "flux" then "flux"
    else if Js.is_string model "flux-1.1-pro" then "flux-11-pro"
         else "flux-11-pro-ultra" in
  generateImage fuel this endpoint params (Some wait) w.

(** [async generateNanoBanana(params, wait = false)] *)
Definition generateNanoBanana (fuel : nat) (this : KreaClient)
           (params : list (string * Js.Value)) (wait : option bool)
           (w : World Types.KreaJob) :=
  let wait := match wait with Some b => b | None => false end in
  let model :=
    Js.or_else (Js.member "model" params) (Js.Str "nano-banana-pro") in
  let endpoint :=
    if Js.is_string model "nano-banana" then "nano-banana"
    else "nano-banana-pro" in
  generateImage fuel this endpoint params (Some wait) w.

(** [async generateIdeogram(params, wait = false)] *)
Definition generateIdeogram (fuel : nat) (this : KreaClient)
           (params : list (string * Js.Value)) (wait : option bool)
           (w : World Types.KreaJob) :=
  let wait := match wait with Some b => b | None => false end in
  let model := Js.or_else (Js.member "model" params) (Js.Str "ideogram-3.0") in
  let endpoint :=
    if Js.is_string model "ideogram-2.0a-turbo" then "ideogram-20a-turbo"
    else "ideogram-30" in
  generateImage fuel this endpoint params (Some wait) w.

(** [async generateSeedream(params, wait = false)] *)
Definition generateSeedream (fuel : nat) (this : KreaClient)
           (params : list (string * Js.Value)) (wait : option bool)
           (w : World Types.KreaJob) :=
  let wait := match wait with Some b => b | None => false end in
  let model := Js.or_else (Js.member "model" params) (Js.Str "seedream-4") in
  let endpoint :=
    if Js.is_string model "seedream-3" then "seedream-3"
    else "seedream-4" in
  generateImage fuel this endpoint params (Some wait) w.

(** *** The wait loop before the cast

    [request] does not check the body it parses: [response.json() as T] is
    whatever JSON the remote sent. The definitions above read a body as a
    value of the declared type. The ones below read the body of a poll
    before the cast [as KreaJob], as far as [waitForJob] can tell the
    difference: the body is the JSON value [null] ([None]) or a job. The
    polls are [request] itself, at the body type [RawJob]. *)

Definition RawJob : Type := option Types.KreaJob.

(** What reading a member of [null] throws. *)
Definition TypeError_null (member : string) : Js.Thrown :=
  Js.ThrownError
    {| Js.name := "TypeError";
       Js.message := "Cannot read properties of null (reading '"
                     ++ member ++ "')" |}.

(** [async getJob(jobId)], the body read before the cast. *)
Definition getJob_raw (this : KreaClient) (jobId : string)
           (w : World RawJob) :=
  get this ("/v1/jobs/" ++ jobId) None w.

(** The value returned after the loop, at the body type [RawJob]. *)
Definition wait_timed_out_raw (jobId : string) (timeoutMs : Z)
  : ApiResponse RawJob :=
  {| success := false;
     data := None;
     error :=
       Some {| code := "TIMEOUT";
               message := "Job " ++ jobId ++ " did not complete within "
                          ++ Js.string_of_Z timeoutMs ++ "ms";
               details := None |} |}.

(** The loop of [waitForJob], the bodies read before the cast:
    [result.data!] may be [null], and [job.status] then throws. *)
Fixpoint waitForJob_loop_raw (fuel : nat) (this : KreaClient) (jobId : string)
         (startTime timeoutMs pollIntervalMs : Z) (w : World RawJob)
  : option (Js.Completion (ApiResponse RawJob)) * World RawJob :=
  match fuel with
  | O => (None, w)
  | S fuel' =>
      let '(t, w0) := Date_now w in
      if t - startTime <? timeoutMs then
        let '(result, w1) := getJob_raw this jobId w0 in
        if negb (success result) then (Some (Js.Returned result), w1)
        else
          match data result with
          | None => (Some (Js.Threw (TypeError_undefined "status")), w1)
          | Some None => (Some (Js.Threw (TypeError_null "status")), w1)
          | Some (Some job) =>
              if is_terminal (Types.status job)
              then (Some (Js.Returned result), w1)
              else
                let '(_, w2) := sleep pollIntervalMs w1 in
                waitForJob_loop_raw fuel' this jobId startTime timeoutMs
                                    pollIntervalMs w2
          end
      else (Some (Js.Returned (wait_timed_out_raw jobId timeoutMs)), w0)
  end.

(** [async waitForJob(jobId, timeoutMs = 120000, pollIntervalMs = 2000)],
    the bodies read before the cast. *)
Definition waitForJob_raw (fuel : nat) (this : KreaClient) (jobId : string)
           (timeoutMs pollIntervalMs : option Z) (w : World RawJob) :=
  let timeoutMs := match timeoutMs with Some t => t | None => 120000 end in
  let pollIntervalMs :=
    match pollIntervalMs with Some p => p | None => 2000 end in
  let '(startTime, w0) := Date_now w in
  waitForJob_loop_raw fuel this jobId startTime timeoutMs pollIntervalMs w0.

End KreaClient.

(* ========================================================================= *)
(** ** services/formatters.ts *)
(* ========================================================================= *)

Module Formatters.

Record TextContent := { type : string; text : string }.

(** [ToolResult]; [D] is the type of the structured content. *)
Record ToolResult (D : Type) := {
  content : list TextContent;
  structuredContent : option D;
  isError : option bool
}.
Arguments content {D} _.
Arguments structuredContent {D} _.
Arguments isError {D} _.

(** [truncateText(text, limit)] *)
Definition truncateText (text : string) (limit : Z) : string :=
  if Js.length text <=? limit then text
  else Js.substring0 (limit - 100) text
       ++ String "010" (String "010"
            "... [Truncated. Use pagination for more results.]").

(** [formatTextResponse(text, data?)] *)
Definition formatTextResponse {D : Type} (text : string) (data : option D)
  : ToolResult D :=
  let truncatedText := truncateText text Types.CHARACTER_LIMIT in
  {| content := [{| type := "text"; text := truncatedText |}];
     structuredContent := data;
     isError := None |}.

(** [formatErrorResponse(message, suggestion?)]; an empty suggestion is
    falsy, like a missing one. *)
Definition formatErrorResponse {D : Type} (message : string)
           (suggestion : option string) : ToolResult D :=
  let errorText :=
    match suggestion with
    | Some s =>
        if (s =? "")%string then "❌ **Error**: " ++ message
        else "❌ **Error**: " ++ message
             ++ String "010" (String "010" "💡 **Suggestion**: ") ++ s
    | None => "❌ **Error**: " ++ message
    end in
  {| content := [{| type := "text"; text := errorText |}];
     structuredContent := None;
     isError := Some true |}.

End Formatters.

(* ========================================================================= *)
(** ** schemas/index.ts *)
(* ========================================================================= *)

Module Schemas.

(** The arguments of [krea_delete_job] as they arrive; [confirm] may be
    missing. *)
Record DeleteJobArgs := {
  dja_job_id : string;
  dja_confirm : option bool
}.

(** [DeleteJobInput], the output type of [DeleteJobSchema]. *)
Record DeleteJobInput := {
  job_id : string;
  confirm : bool
}.

(** [DeleteJobSchema.parse]: [job_id] has at least one character and
    [confirm] defaults to [false]. [None] stands for a validation error. *)
Definition DeleteJobSchema (args : DeleteJobArgs) : option DeleteJobInput :=
  if 1 <=? Js.length (dja_job_id args)
  then Some {| job_id := dja_job_id args;
               confirm := match dja_confirm args with
                          | Some b => b
                          | None => false
                          end |}
  else None.

Record DeleteAssetArgs := {
  daa_asset_id : string;
  daa_confirm : option bool
}.

Record DeleteAssetInput := {
  asset_id : string;
  asset_confirm : bool
}.

(** [DeleteAssetSchema.parse] *)
Definition DeleteAssetSchema (args : DeleteAssetArgs)
  : option DeleteAssetInput :=
  if 1 <=? Js.length (daa_asset_id args)
  then Some {| asset_id := daa_asset_id args;
               asset_confirm := match daa_confirm args with
                                | Some b => b
                                | None => false
                                end |}
  else None.

(** The arguments of [krea_wait_for_job] as they arrive. *)
Record WaitForJobArgs := {
  wja_job_id : string;
  wja_timeout_seconds : option Z;
  wja_poll_interval_ms : option Z
}.

(** [WaitForJobInput], the output type of [WaitForJobSchema]. *)
Record WaitForJobInput := {
  wj_job_id : string;
  timeout_seconds : Z;
  poll_interval_ms : Z
}.

(** [WaitForJobSchema.parse]: a job id of at least one character, a timeout
    of 10 to 300 seconds (120 when missing) and a poll interval of 1000 to
    10000 ms (2000 when missing). [None] stands for a validation error. *)
Definition WaitForJobSchema (args : WaitForJobArgs) : option WaitForJobInput :=
  let timeout_seconds :=
    match wja_timeout_seconds args with Some t => t | None => 120 end in
  let poll_interval_ms :=
    match wja_poll_interval_ms args with Some p => p | None => 2000 end in
  if (1 <=? Js.length (wja_job_id args))
     && (10 <=? timeout_seconds) && (timeout_seconds <=? 300)
     && (1000 <=? poll_interval_ms) && (poll_interval_ms <=? 10000)
  then Some {| wj_job_id := wja_job_id args;
               timeout_seconds := timeout_seconds;
               poll_interval_ms := poll_interval_ms |}
  else None.

End Schemas.

(* ========================================================================= *)
(** ** tools/index.ts *)
(* ========================================================================= *)

Module Tools.

Import Net KreaClient Formatters Schemas.

(** The handler registered for [krea_delete_job]. *)
Definition krea_delete_job (client : KreaClient) (params : DeleteJobInput)
           (w : World Deleted)
  : Js.Completion (ToolResult unit) * World Deleted :=
  if negb (confirm params)
  then (Js.Returned (formatErrorResponse "Deletion not confirmed"
                       (Some "Set confirm=true to delete")), w)
  else
    let '(result, w1) := deleteJob client (job_id params) w in
    if negb (success result)
    then
      match error result with
      | Some e => (Js.Returned (formatErrorResponse (message e) None), w1)
      | None => (Js.Threw (TypeError_undefined "message"), w1)
      end
    else (Js.Returned
            (formatTextResponse
               ("✅ Job `" ++ job_id params ++ "` deleted successfully.")
               None), w1).

(** The handler registered for [krea_delete_asset]. *)
Definition krea_delete_asset (client : KreaClient) (params : DeleteAssetInput)
           (w : World Deleted)
  : Js.Completion (ToolResult unit) * World Deleted :=
  if negb (asset_confirm params)
  then (Js.Returned (formatErrorResponse "Deletion not confirmed"
                       (Some "Set confirm=true to delete")), w)
  else
    let '(result, w1) := deleteAsset client (asset_id params) w in
    if negb (success result)
    then
      match error result with
      | Some e => (Js.Returned (formatErrorResponse (message e) None), w1)
      | None => (Js.Threw (TypeError_undefined "message"), w1)
      end
    else (Js.Returned
            (formatTextResponse
               ("✅ Asset `" ++ asset_id params ++ "` deleted successfully.")
               None), w1).

End Tools.

(* ========================================================================= *)
(** ** Vocabulary for runs of the wait loop *)
(* ========================================================================= *)

Module Run.

Import Net KreaClient.

(** The one request a poll makes: what [getJob] hands to [fetch]. *)
Definition poll_fetch (this : KreaClient) (jobId : string) : Event :=
  EvFetch {| href := baseUrl this ++ "/v1/jobs/" ++ jobId;
             searchParams := [] |}
          {| method := "GET";
             headers := [("Authorization", "Bearer " ++ apiKey this);
                         ("Content-Type", "application/json");
                         ("Accept", "application/json")];
             body := None |}.

(** The world one full iteration later: a [getJob], then the sleep. *)
Definition next_poll (this : KreaClient) (jobId : string) (pollIntervalMs : Z)
           (w : World Types.KreaJob) : World Types.KreaJob :=
  snd (sleep pollIntervalMs (snd (getJob this jobId w))).

(** The world in which the loop condition is evaluated for the [n]-th time
    (counting from 0), when no earlier iteration returned. *)
Fixpoint world_at (this : KreaClient) (jobId : string) (pollIntervalMs : Z)
         (n : nat) (w : World Types.KreaJob) : World Types.KreaJob :=
  match n with
  | O => w
  | S n' => world_at this jobId pollIntervalMs n'
                     (next_poll this jobId pollIntervalMs w)
  end.

(** A poll made in [w] succeeds and reads a status that is not terminal. *)
Definition observes_pending (this : KreaClient) (jobId : string)
           (w : World Types.KreaJob) : bool :=
  let result := fst (getJob this jobId w) in
  success result &&
  match data result with
  | Some job => negb (is_terminal (Types.status job))
  | None => false
  end.

(** The first [n] iterations from [w] each start before the deadline and
    each read a status that is not terminal. *)
Fixpoint pending_for (this : KreaClient) (jobId : string)
         (startTime timeoutMs pollIntervalMs : Z) (n : nat)
         (w : World Types.KreaJob) : bool :=
  match n with
  | O => true
  | S n' =>
      (now w - startTime <? timeoutMs)
      && observes_pending this jobId w
      && pending_for this jobId startTime timeoutMs pollIntervalMs n'
                     (next_poll this jobId pollIntervalMs w)
  end.

(** [n] iterations of the loop body that did not return: a fetch and a
    sleep each. *)
Fixpoint polls (this : KreaClient) (jobId : string) (pollIntervalMs : Z)
         (n : nat) : list Event :=
  match n with
  | O => []
  | S n' => poll_fetch this jobId :: EvSleep pollIntervalMs
            :: polls this jobId pollIntervalMs n'
  end.

(** The invariant of the [ApiResponse] envelope: [data] and no [error] on
    success, [error] and no [data] on failure. *)
Definition envelope_ok {T : Type} (r : ApiResponse T) : bool :=
  match success r, data r, error r with
  | true, Some _, None => true
  | false, None, Some _ => true
  | _, _, _ => false
  end.


(** A query entry for a value that is defined, nothing for [undefined]. *)
Definition entry (key : string) (v : option string) : list (string * string) :=
  match v with
  | Some s => [(key, s)]
  | None => []
  end.

(** The query a [listJobs] call sends. *)
Definition listJobs_query (params : ListJobsParams) : list (string * string) :=
  (entry "limit" (option_map Js.string_of_Z (lj_limit params))
   ++ entry "offset" (option_map Js.string_of_Z (lj_offset params))
   ++ entry "status" (match lj_status params with
                      | Some s => if (s =? "all")%string then None else Some s
                      | None => None
                      end)
   ++ entry "type" (lj_type params))%list.

(** The query entries of a [params] record: one for each member that is
    defined, in the order of the record. *)
Definition defined_params (params : Params) : list (string * string) :=
  flat_map (fun '(key, v) => match v with
                             | Some value => [(key, String_ value)]
                             | None => []
                             end) params.

(** The request a submission makes: a POST of the parameters with the
    client's webhook. *)
Definition submit_fetch (this : KreaClient) (path : string)
           (params : list (string * Js.Value)) : Event :=
  EvFetch {| href := baseUrl this ++ path; searchParams := [] |}
          {| method := "POST";
             headers := [("Authorization", "Bearer " ++ apiKey this);
                         ("Content-Type", "application/json");
                         ("Accept", "application/json")];
             body := Some (with_webhook this params) |}.

(** The end of every truncated text. *)
Definition truncation_marker : string :=
  String "010" (String "010"
    "... [Truncated. Use pagination for more results.]").

(** A world whose bodies are all jobs, seen before the cast, and the
    results read in it. *)
Definition raw_parsed (p : Parsed Types.KreaJob) : Parsed RawJob :=
  {| value := Some (value p); Net.message := Net.message p |}.

Definition raw_response (r : Response Types.KreaJob) : Response RawJob :=
  {| ok := ok r;
     status := status r;
     json := match json r with
             | inl err => inl err
             | inr p => inr (raw_parsed p)
             end |}.

Definition raw_exchange (x : Exchange Types.KreaJob) : Exchange RawJob :=
  {| latency := latency x;
     settles := match settles x with
                | Fulfilled r => Fulfilled (raw_response r)
                | Rejected err => Rejected err
                end |}.

Definition raw_world (w : World Types.KreaJob) : World RawJob :=
  {| now := now w;
     url_error := url_error w;
     wire := fun k => raw_exchange (wire w k);
     sent := sent w;
     log := log w |}.

Definition raw_result (r : ApiResponse Types.KreaJob) : ApiResponse RawJob :=
  {| success := success r;
     data := option_map Some (data r);
     error := option_map
                (fun e => {| code := code e;
                             message := message e;
                             details := option_map Some (details e) |})
                (error r) |}.

Definition raw_completion
           (c : option (Js.Completion (ApiResponse Types.KreaJob)))
  : option (Js.Completion (ApiResponse RawJob)) :=
  match c with
  | Some (Js.Returned r) => Some (Js.Returned (raw_result r))
  | Some (Js.Threw e) => Some (Js.Threw e)
  | None => None
  end.

End Run.

(* ========================================================================= *)
(** ** Concrete clients, jobs and worlds *)
(* ========================================================================= *)

Module Fixtures.

Import Net KreaClient.

Definition client : KreaClient :=
  new_KreaClient {| cfg_apiKey := "key";
                    cfg_baseUrl := Some "https://api.krea.ai/";
                    cfg_timeout := None;
                    cfg_webhookUrl := None |}.

Definition job (s : Types.JobStatus) : Types.KreaJob :=
  {| Types.id := "j1";
     Types.status := s;
     Types.type := "image";
     Types.createdAt := "2025-01-01T00:00:00Z";
     Types.updatedAt := "2025-01-01T00:00:05Z";
     Types.completedAt := None;
     Types.result := None;
     Types.error := match s with
                    | Types.failed => Some "out of credits"
                    | _ => None
                    end |}.

(** A 200 response carrying the job in status [s], after 100 ms. *)
Definition answers (s : Types.JobStatus) : Exchange Types.KreaJob :=
  {| latency := 100;
     settles := Fulfilled {| ok := true; status := 200;
                             json := inr {| value := job s;
                                            Net.message := None |} |} |}.

(** A 503 response, after 100 ms. *)
Definition unavailable : Exchange Types.KreaJob :=
  {| latency := 100;
     settles := Fulfilled {| ok := false; status := 503;
                             json := inr {| value := job Types.pending;
                                            Net.message := Some "busy" |} |} |}.

Definition world_of {T : Type} (script : nat -> Exchange T) : World T :=
  {| now := 1000; url_error := fun _ => None; wire := script;
     sent := 0; log := [] |}.

(** pending, processing, then the status [s] for ever. *)
Definition two_then (s : Types.JobStatus) : World Types.KreaJob :=
  world_of (fun k => match k with
                     | O => answers Types.pending
                     | S O => answers Types.processing
                     | _ => answers s
                     end).

(** pending, processing, then a 503. *)
Definition two_then_unavailable : World Types.KreaJob :=
  world_of (fun k => match k with
                     | O => answers Types.pending
                     | S O => answers Types.processing
                     | _ => unavailable
                     end).

(** The job never leaves [processing]. *)
Definition stuck : World Types.KreaJob :=
  world_of (fun _ => answers Types.processing).

(** The remote answers 404 to a delete. *)
Definition gone : World Deleted :=
  world_of (fun _ =>
    {| latency := 80;
       settles := Fulfilled {| ok := false; status := 404;
                               json := inr {| value := {| deleted := false |};
                                              Net.message := Some "Job not found" |} |} |}).

(** The remote answers any list request with an empty page. *)
Definition empty_list : World (ListResponse Types.KreaJob) :=
  world_of (fun _ =>
    {| latency := 50;
       settles := Fulfilled {| ok := true; status := 200;
                               json := inr {| value := {| items := [];
                                                          total := 0;
                                                          hasMore := false;
                                                          nextCursor := None |};
                                              Net.message := None |} |} |}).

(** The first exchange never settles within the request timeout. *)
Definition hung : World Types.KreaJob :=
  world_of (fun k => match k with
                     | O => {| latency := 500000;
                               settles := settles (answers Types.completed) |}
                     | _ => answers Types.completed
                     end).

(** pending, processing, then a completed job that takes 3000 ms to
    arrive. *)
Definition late : World Types.KreaJob :=
  world_of (fun k => match k with
                     | O => answers Types.pending
                     | S O => answers Types.processing
                     | _ => {| latency := 3000;
                               settles := settles (answers Types.completed) |}
                     end).


(** The remote answers 404 to a delete, with a body that is not JSON. *)
Definition gone_unparsable : World Deleted :=
  world_of (fun _ =>
    {| latency := 80;
       settles :=
         Fulfilled {| ok := false; status := 404;
                      json := inl (Js.ThrownError
                                     {| Js.name := "SyntaxError";
                                        Js.message := "Unexpected end of JSON input" |})
                   |} |}).

End Fixtures.

(* ========================================================================= *)
(** ** Facts about the runtime and about [request] *)
(* ========================================================================= *)

Import Net KreaClient Run.

Lemma timer_delay_pos (ms : Z) : 1 <= Js.timer_delay ms.
Proof.
  unfold Js.timer_delay.
  destruct (ms <? 1) eqn:E1; simpl; [lia|].
  destruct (2147483647 <? ms); lia.
Qed.

Lemma timer_delay_id (ms : Z) :
  1 <= ms <= 2147483647 -> Js.timer_delay ms = ms.
Proof.
  intros [H1 H2]. unfold Js.timer_delay.
  destruct (Z.ltb_spec ms 1); [lia|].
  destruct (Z.ltb_spec 2147483647 ms); [lia|]. reflexivity.
Qed.

Section RequestFacts.
Context {T : Type}.
Implicit Types (w : World T) (this : KreaClient).

(** What a call to [fetch] leaves behind. *)
Lemma fetch_world url init abortMs w :
  let w' := snd (fetch url init abortMs w) in
  url_error w' = url_error w /\ wire w' = wire w /\
  sent w' = S (sent w) /\ log w' = (log w ++ [EvFetch url init])%list /\
  (0 <= latency (wire w (sent w)) -> now w <= now w').
Proof.
  unfold fetch. pose proof (timer_delay_pos abortMs).
  destruct (latency (wire w (sent w)) <? Js.timer_delay abortMs);
    simpl; repeat split; auto; lia.
Qed.

Lemma request_catch_fails (err : Js.Thrown) :
  envelope_ok (request_catch (T:=T) err) = true /\
  success (request_catch (T:=T) err) = false.
Proof.
  destruct err as [e|]; simpl; [|auto].
  destruct (Js.name e =? "AbortError")%string; auto.
Qed.

(** Every result of [request] is a well-formed envelope. *)
Lemma request_envelope this method endpoint options w :
  envelope_ok (fst (request this method endpoint options w)) = true.
Proof.
  unfold request.
  destruct (new_URL _ w) as [err|url0]; simpl.
  { apply request_catch_fails. }
  destruct (fetch _ _ _ w) as [settled w1].
  destruct settled as [response|err]; simpl.
  2:{ apply request_catch_fails. }
  destruct (json response) as [err|parsed]; simpl.
  { apply request_catch_fails. }
  destruct (ok response); reflexivity.
Qed.

(** A request whose URL is rejected touches nothing. *)
Lemma request_bad_url this method endpoint options w err :
  url_error w (baseUrl this ++ endpoint) = Some err ->
  request this method endpoint options w = (request_catch err, w).
Proof.
  intros H. unfold request, new_URL. rewrite H. reflexivity.
Qed.

(** The world after a request: the one it started in when [new URL]
    throws, and otherwise one exchange further. *)
Lemma request_world this method endpoint options w :
  let w' := snd (request this method endpoint options w) in
  url_error w' = url_error w /\ wire w' = wire w /\
  (0 <= latency (wire w (sent w)) -> now w <= now w') /\
  (w' = w \/
   exists url init, sent w' = S (sent w) /\
                    log w' = (log w ++ [EvFetch url init])%list).
Proof.
  unfold request.
  destruct (new_URL _ w) as [err|url0]; simpl.
  { repeat split; auto; lia. }
  match goal with
  | |- context [fetch ?u ?i ?a w] =>
      pose proof (fetch_world u i a w) as F;
      destruct (fetch u i a w) as [settled w1]
  end.
  simpl in F. destruct F as (F1 & F2 & F3 & F4 & F5).
  destruct settled as [response|err];
    [destruct (json response); [|destruct (ok response)]|];
    simpl; (repeat split; auto; right; eauto).
Qed.

(** A request whose URL parses makes exactly one call to [fetch]. *)
Lemma request_sent this method endpoint options w :
  url_error w (baseUrl this ++ endpoint) = None ->
  snd (request this method endpoint options w)
  = snd (fetch (request_url {| href := baseUrl this ++ endpoint;
                               searchParams := [] |} options)
               (request_init this method options) (timeout this) w).
Proof.
  intros H. unfold request, new_URL. rewrite H.
  destruct (fetch _ _ _ w) as [settled w1].
  destruct settled as [response|err];
    [destruct (json response); [|destruct (ok response)]|]; reflexivity.
Qed.

(** Only a request that was sent can succeed. *)
Lemma request_success_url this method endpoint options w :
  success (fst (request this method endpoint options w)) = true ->
  url_error w (baseUrl this ++ endpoint) = None.
Proof.
  intros H.
  destruct (url_error w (baseUrl this ++ endpoint)) as [err|] eqn:E; auto.
  rewrite (request_bad_url _ _ _ _ _ _ E) in H. simpl in H.
  destruct (request_catch_fails err) as [_ F]. congruence.
Qed.

End RequestFacts.

(* ========================================================================= *)
(** ** Facts about the wait loop *)
(* ========================================================================= *)

Section WaitLoopFacts.
Variables (this : KreaClient) (jobId : string).
Implicit Types (w : World Types.KreaJob).

(** A poll that succeeds made exactly the request [poll_fetch]. *)
Lemma getJob_success_world w :
  success (fst (getJob this jobId w)) = true ->
  let w' := snd (getJob this jobId w) in
  url_error w' = url_error w /\ wire w' = wire w /\
  sent w' = S (sent w) /\
  log w' = (log w ++ [poll_fetch this jobId])%list.
Proof.
  intros H. unfold getJob, get in *.
  apply request_success_url in H.
  rewrite (request_sent _ _ _ _ _ H).
  match goal with
  | |- context [fetch ?u ?i ?a w] =>
      destruct (fetch_world u i a w) as (F1 & F2 & F3 & F4 & _)
  end.
  repeat split; assumption.
Qed.

Lemma observes_pending_success w :
  observes_pending this jobId w = true ->
  success (fst (getJob this jobId w)) = true.
Proof.
  unfold observes_pending. intros H.
  apply andb_true_iff in H. tauto.
Qed.

Section Interval.
Variable pollIntervalMs : Z.

Lemma next_poll_frame w :
  url_error (next_poll this jobId pollIntervalMs w) = url_error w /\
  wire (next_poll this jobId pollIntervalMs w) = wire w.
Proof.
  unfold next_poll, getJob, get, sleep. cbn [snd url_error wire].
  destruct (request_world this "GET" ("/v1/jobs/" ++ jobId)
              (Some {| opt_body := None; opt_params := None |}) w)
    as (F1 & F2 & _).
  auto.
Qed.

(** An iteration that does not return takes at least a millisecond. *)
Lemma next_poll_clock w :
  0 <= latency (wire w (sent w)) ->
  now w + 1 <= now (next_poll this jobId pollIntervalMs w).
Proof.
  intros H. unfold next_poll, getJob, get, sleep. cbn [snd now].
  destruct (request_world this "GET" ("/v1/jobs/" ++ jobId)
              (Some {| opt_body := None; opt_params := None |}) w)
    as (_ & _ & F3 & _).
  specialize (F3 H). pose proof (timer_delay_pos pollIntervalMs). lia.
Qed.

(** What an iteration that read a pending status leaves behind. *)
Lemma next_poll_pending w :
  observes_pending this jobId w = true ->
  sent (next_poll this jobId pollIntervalMs w) = S (sent w) /\
  log (next_poll this jobId pollIntervalMs w)
  = (log w ++ [poll_fetch this jobId; EvSleep pollIntervalMs])%list.
Proof.
  intros H. apply observes_pending_success in H.
  destruct (getJob_success_world w H) as (_ & _ & F3 & F4).
  unfold next_poll. simpl. rewrite F3, F4, <- app_assoc. auto.
Qed.

Lemma world_at_frame n : forall w,
  url_error (world_at this jobId pollIntervalMs n w) = url_error w /\
  wire (world_at this jobId pollIntervalMs n w) = wire w.
Proof.
  induction n as [|n IH]; intros w; simpl; [auto|].
  destruct (IH (next_poll this jobId pollIntervalMs w)) as [E1 E2].
  destruct (next_poll_frame w) as [F1 F2].
  split; congruence.
Qed.

Lemma world_at_succ n : forall w,
  world_at this jobId pollIntervalMs (S n) w
  = next_poll this jobId pollIntervalMs
              (world_at this jobId pollIntervalMs n w).
Proof.
  induction n as [|n IH]; intros w; [reflexivity|].
  change (world_at this jobId pollIntervalMs (S (S n)) w)
    with (world_at this jobId pollIntervalMs (S n)
                   (next_poll this jobId pollIntervalMs w)).
  rewrite IH. reflexivity.
Qed.

Section Deadline.
Variables (startTime timeoutMs : Z).

Lemma pending_for_succ n : forall w,
  pending_for this jobId startTime timeoutMs pollIntervalMs (S n) w
  = pending_for this jobId startTime timeoutMs pollIntervalMs n w
    && (now (world_at this jobId pollIntervalMs n w) - startTime <? timeoutMs)
    && observes_pending this jobId (world_at this jobId pollIntervalMs n w).
Proof.
  induction n as [|n IH]; intros w.
  - simpl. rewrite andb_true_r. reflexivity.
  - change (pending_for this jobId startTime timeoutMs pollIntervalMs
                        (S (S n)) w)
      with ((now w - startTime <? timeoutMs)
            && observes_pending this jobId w
            && pending_for this jobId startTime timeoutMs pollIntervalMs (S n)
                           (next_poll this jobId pollIntervalMs w)).
    rewrite IH. simpl. rewrite !andb_assoc. reflexivity.
Qed.

(** [n] iterations that each read a pending status before the deadline use
    up [n] units of fuel and bring the loop to [world_at n]. *)
Lemma loop_skips_pending n : forall fuel w,
  pending_for this jobId startTime timeoutMs pollIntervalMs n w = true ->
  waitForJob_loop (n + fuel) this jobId startTime timeoutMs pollIntervalMs w
  = waitForJob_loop fuel this jobId startTime timeoutMs pollIntervalMs
                    (world_at this jobId pollIntervalMs n w).
Proof.
  induction n as [|n IH]; intros fuel w H; [reflexivity|].
  simpl in H. apply andb_true_iff in H. destruct H as [H H3].
  apply andb_true_iff in H. destruct H as [H1 H2].
  simpl. rewrite H1.
  unfold observes_pending in H2. unfold next_poll in IH, H3 |- *.
  destruct (getJob this jobId w) as [result w1]. simpl in *.
  apply andb_true_iff in H2. destruct H2 as [S1 S2].
  rewrite S1. simpl.
  destruct (data result) as [job|]; [|discriminate].
  apply negb_true_iff in S2. rewrite S2.
  apply IH. exact H3.
Qed.

(** The effects of [n] such iterations. *)
Lemma world_at_pending n : forall w,
  pending_for this jobId startTime timeoutMs pollIntervalMs n w = true ->
  sent (world_at this jobId pollIntervalMs n w) = (sent w + n)%nat /\
  log (world_at this jobId pollIntervalMs n w)
  = (log w ++ polls this jobId pollIntervalMs n)%list.
Proof.
  induction n as [|n IH]; intros w H; simpl.
  - rewrite app_nil_r. auto.
  - simpl in H. apply andb_true_iff in H. destruct H as [H H3].
    apply andb_true_iff in H. destruct H as [H1 H2].
    destruct (IH _ H3) as [E1 E2].
    destruct (next_poll_pending w H2) as [F1 F2].
    rewrite E1, E2, F1, F2, <- app_assoc. simpl. split; [lia|reflexivity].
Qed.

(** The iteration in which the loop returns what it fetched. *)
Lemma loop_returns_fetched fuel w result w' :
  now w - startTime < timeoutMs ->
  getJob this jobId w = (result, w') ->
  success result = false
  \/ (exists job, data result = Some job /\
                  is_terminal (Types.status job) = true) ->
  waitForJob_loop (S fuel) this jobId startTime timeoutMs pollIntervalMs w
  = (Some (Js.Returned result), w').
Proof.
  intros Ht Hg Hr. simpl.
  apply Z.ltb_lt in Ht. rewrite Ht, Hg.
  destruct Hr as [Hr|(job & Hd & Hs)].
  - rewrite Hr. reflexivity.
  - destruct (success result); [|reflexivity].
    simpl. rewrite Hd, Hs. reflexivity.
Qed.

(** The evaluation of the loop condition that finds the deadline passed. *)
Lemma loop_returns_timeout fuel w :
  timeoutMs <= now w - startTime ->
  waitForJob_loop (S fuel) this jobId startTime timeoutMs pollIntervalMs w
  = (Some (Js.Returned (wait_timed_out jobId timeoutMs)), w).
Proof.
  intros Ht. simpl.
  destruct (Z.ltb_spec (now w - startTime) timeoutMs); [lia|reflexivity].
Qed.

End Deadline.
End Interval.
End WaitLoopFacts.

(* ========================================================================= *)
(** ** The wait loop: terminal statuses, fetch failures, cadence *)
(* ========================================================================= *)

Section WaitLoop.
Variables (this : KreaClient) (jobId : string).
Variables (timeoutMs pollIntervalMs : Z).
Implicit Types (w : World Types.KreaJob).

Local Abbreviation at_poll n w := (world_at this jobId pollIntervalMs n w).
Local Abbreviation pending_first n w :=
  (pending_for this jobId (now w) timeoutMs pollIntervalMs n w).

(** C1. A fetch made inside the loop of [waitForJob] is reached after some
    number [n] of iterations that each started before the deadline and read
    a status that is not terminal. When that fetch succeeds and delivers a
    job whose status [s] is completed, failed or cancelled, [waitForJob]
    returns [success: true] with that very job and no [error]: a failed or
    cancelled job is a successful wait, never the loop's own error. *)
Theorem waitForJob_returns_terminal_job
        (n fuel : nat) w (job : Types.KreaJob) (s : Types.JobStatus) :
  s = Types.completed \/ s = Types.failed \/ s = Types.cancelled ->
  pending_first n w = true ->
  now (at_poll n w) - now w < timeoutMs ->
  success (fst (getJob this jobId (at_poll n w))) = true ->
  data (fst (getJob this jobId (at_poll n w))) = Some job ->
  Types.status job = s ->
  waitForJob (S (n + fuel)) this jobId (Some timeoutMs) (Some pollIntervalMs) w
  = (Some (Js.Returned {| success := true; data := Some job; error := None |}),
     snd (getJob this jobId (at_poll n w))).
Proof.
  intros Hs Hp Ht Hok Hd Hj.
  unfold waitForJob. cbn [Date_now].
  replace (S (n + fuel)) with (n + S fuel)%nat by lia.
  rewrite (loop_skips_pending _ _ _ _ _ _ _ _ Hp).
  assert (is_terminal (Types.status job) = true) as Hterm.
  { rewrite Hj. destruct Hs as [->|[->| ->]]; reflexivity. }
  pose proof (request_envelope this "GET" ("/v1/jobs/" ++ jobId)
                (Some {| opt_body := None; opt_params := None |})
                (at_poll n w)) as He.
  fold (get this ("/v1/jobs/" ++ jobId) None (at_poll n w)) in He.
  fold (getJob this jobId (at_poll n w)) in He.
  destruct (getJob this jobId (at_poll n w)) as [result w'] eqn:Eg.
  cbn [fst snd] in *.
  rewrite (loop_returns_fetched this jobId pollIntervalMs (now w) timeoutMs
             fuel (at_poll n w) result w' Ht Eg).
  - destruct result as [sc d e]. cbn in *. subst sc d.
    destruct e; [discriminate|reflexivity].
  - right. exists job. auto.
Qed.

(** C3. When a [getJob] made by the loop returns [success: false],
    [waitForJob] returns that same result, and the world it leaves is the
    one right after that [getJob]: no sleep and no further fetch follows. The
    log holds the [n] earlier polls and at most the request that failed
    (none when [new URL] threw). *)
Theorem waitForJob_propagates_fetch_failure (n fuel : nat) w :
  pending_first n w = true ->
  now (at_poll n w) - now w < timeoutMs ->
  success (fst (getJob this jobId (at_poll n w))) = false ->
  let w' := snd (getJob this jobId (at_poll n w)) in
  waitForJob (S (n + fuel)) this jobId (Some timeoutMs) (Some pollIntervalMs) w
  = (Some (Js.Returned (fst (getJob this jobId (at_poll n w)))), w')
  /\ (log w' = (log w ++ polls this jobId pollIntervalMs n)%list
      \/ exists url init,
           log w' = (log w ++ polls this jobId pollIntervalMs n
                           ++ [EvFetch url init])%list)
  /\ (sent w' <= sent w + n + 1)%nat.
Proof.
  intros Hp Ht Hf w'. subst w'.
  destruct (world_at_pending _ _ _ _ _ _ _ Hp) as [Es El].
  split.
  - unfold waitForJob. cbn [Date_now].
    replace (S (n + fuel)) with (n + S fuel)%nat by lia.
    rewrite (loop_skips_pending _ _ _ _ _ _ _ _ Hp).
    apply loop_returns_fetched; auto.
    destruct (getJob this jobId (at_poll n w)); reflexivity.
  - unfold getJob, get.
    destruct (request_world this "GET" ("/v1/jobs/" ++ jobId)
                (Some {| opt_body := None; opt_params := None |})
                (at_poll n w)) as (_ & _ & _ & [E|(url & init & E1 & E2)]).
    + rewrite E. split; [left; assumption | lia].
    + rewrite E1, E2, El, Es, <- app_assoc.
      split; [right; eauto | lia].
Qed.


End WaitLoop.

(* ========================================================================= *)
(** ** The wait loop: the deadline *)
(* ========================================================================= *)

Section Deadline.
Variables (this : KreaClient) (jobId : string).
Variables (timeoutMs pollIntervalMs : Z).
Implicit Types (w : World Types.KreaJob).

Local Abbreviation at_poll n w := (world_at this jobId pollIntervalMs n w).
Local Abbreviation pending_first n w :=
  (pending_for this jobId (now w) timeoutMs pollIntervalMs n w).

(** Each of the first [n] iterations of a pending run started before the
    deadline. *)
Lemma pending_for_before_deadline startTime n : forall w k,
  pending_for this jobId startTime timeoutMs pollIntervalMs n w = true ->
  (k < n)%nat ->
  now (at_poll k w) - startTime < timeoutMs.
Proof.
  induction n as [|n IH]; intros w k H Hk; [lia|].
  simpl in H. apply andb_true_iff in H. destruct H as [H H3].
  apply andb_true_iff in H. destruct H as [H1 _].
  destruct k as [|k]; simpl.
  - apply Z.ltb_lt. exact H1.
  - apply IH; [exact H3 | lia].
Qed.

(** The loop, started at the [k]-th evaluation of its condition of a run
    that only reads pending statuses, ends in the timeout result. *)
Lemma loop_reaches_deadline w :
  (forall k, 0 <= latency (wire w k)) ->
  (forall n, now (at_poll n w) - now w < timeoutMs ->
             observes_pending this jobId (at_poll n w) = true) ->
  forall fuel k,
    pending_first k w = true ->
    (Z.to_nat (timeoutMs - (now (at_poll k w) - now w)) < fuel)%nat ->
    exists n,
      waitForJob_loop fuel this jobId (now w) timeoutMs pollIntervalMs
                      (at_poll k w)
      = (Some (Js.Returned (wait_timed_out jobId timeoutMs)), at_poll n w)
      /\ timeoutMs <= now (at_poll n w) - now w
      /\ pending_first n w = true.
Proof.
  intros Hlat Hpend.
  induction fuel as [|fuel IH]; intros k Hk Hfuel; [lia|].
  destruct (Z.lt_ge_cases (now (at_poll k w) - now w) timeoutMs) as [Hin|Hout].
  - pose proof (Hpend k Hin) as Hobs.
    assert (pending_first (S k) w = true) as Hk'.
    { rewrite pending_for_succ, Hk, Hobs.
      apply Z.ltb_lt in Hin. rewrite Hin. reflexivity. }
    assert (pending_for this jobId (now w) timeoutMs pollIntervalMs 1
                        (at_poll k w) = true) as H1.
    { simpl. rewrite Hobs. apply Z.ltb_lt in Hin. rewrite Hin. reflexivity. }
    pose proof (loop_skips_pending this jobId pollIntervalMs (now w) timeoutMs
                  1 fuel (at_poll k w) H1) as Estep.
    change (1 + fuel)%nat with (S fuel) in Estep.
    rewrite Estep.
    change (world_at this jobId pollIntervalMs 1 (at_poll k w))
      with (next_poll this jobId pollIntervalMs (at_poll k w)).
    rewrite <- world_at_succ.
    apply IH; [exact Hk'|].
    rewrite world_at_succ.
    pose proof (next_poll_clock this jobId pollIntervalMs (at_poll k w)) as Hc.
    destruct (world_at_frame this jobId pollIntervalMs k w) as [_ Ew].
    rewrite Ew in Hc. specialize (Hc (Hlat _)). lia.
  - exists k. rewrite loop_returns_timeout by lia. auto.
Qed.

(** C2. Take a run in which every poll that starts before the deadline
    succeeds and reads a status that is not terminal, and in which exchanges
    take no negative time. With more than [timeoutMs] units of fuel
    [waitForJob] returns [success: false] with code TIMEOUT and the message
    "Job <jobId> did not complete within <timeoutMs>ms". It does so at the
    first evaluation [n] of the loop condition at which the elapsed time has
    reached [timeoutMs]; each of the [n] fetches made started at an earlier
    evaluation, where the elapsed time was below [timeoutMs], and no fetch
    is made from the evaluation that finds the deadline passed. *)
Theorem waitForJob_times_out (fuel : nat) w :
  (forall k, 0 <= latency (wire w k)) ->
  (forall n, now (at_poll n w) - now w < timeoutMs ->
             observes_pending this jobId (at_poll n w) = true) ->
  (Z.to_nat timeoutMs < fuel)%nat ->
  exists n,
    waitForJob fuel this jobId (Some timeoutMs) (Some pollIntervalMs) w
    = (Some (Js.Returned
               {| success := false;
                  data := None;
                  error :=
                    Some {| code := "TIMEOUT";
                            message :=
                              "Job " ++ jobId ++ " did not complete within "
                              ++ Js.string_of_Z timeoutMs ++ "ms";
                            details := None |} |}),
       at_poll n w)
    /\ timeoutMs <= now (at_poll n w) - now w
    /\ (forall k, (k < n)%nat -> now (at_poll k w) - now w < timeoutMs)
    /\ sent (at_poll n w) = (sent w + n)%nat
    /\ log (at_poll n w) = (log w ++ polls this jobId pollIntervalMs n)%list.
Proof.
  intros Hlat Hpend Hfuel.
  destruct (loop_reaches_deadline w Hlat Hpend fuel 0 eq_refl)
    as (n & E & Hout & Hp).
  { simpl. replace (now w - now w) with 0 by lia.
    rewrite Z.sub_0_r. exact Hfuel. }
  exists n.
  destruct (world_at_pending _ _ _ _ _ _ _ Hp) as [Es El].
  repeat split; auto.
  intros k Hk. eapply pending_for_before_deadline; eauto.
Qed.

(** C9. With [timeoutMs <= 0] the loop condition fails the first time it
    is evaluated: [waitForJob] returns the TIMEOUT result and leaves the
    world as it found it, so no fetch (and no sleep) was made, whatever the
    job and the poll interval. *)
Theorem waitForJob_nonpositive_timeout (fuel : nat) (interval : option Z) w :
  timeoutMs <= 0 ->
  waitForJob (S fuel) this jobId (Some timeoutMs) interval w
  = (Some (Js.Returned
             {| success := false;
                data := None;
                error :=
                  Some {| code := "TIMEOUT";
                          message :=
                            "Job " ++ jobId ++ " did not complete within "
                            ++ Js.string_of_Z timeoutMs ++ "ms";
                          details := None |} |}),
     w).
Proof.
  intros H. unfold waitForJob. cbn [Date_now].
  apply loop_returns_timeout. lia.
Qed.

End Deadline.

(* ========================================================================= *)
(** ** The gateway: list filters, deletion, the envelope, wait budgets *)
(* ========================================================================= *)

Lemma listJobs_sends (this : KreaClient) (params : ListJobsParams)
      (w : World (ListResponse Types.KreaJob)) :
  url_error w (baseUrl this ++ "/v1/jobs") = None ->
  exists init,
    log (snd (listJobs this params w))
    = (log w ++ [EvFetch {| href := baseUrl this ++ "/v1/jobs";
                            searchParams := listJobs_query params |}
                         init])%list
    /\ method init = "GET".
Proof.
  intros H. unfold listJobs, get.
  rewrite (request_sent _ _ _ _ _ H).
  match goal with
  | |- context [fetch ?u ?i ?a w] =>
      destruct (fetch_world u i a w) as (_ & _ & _ & F4 & _)
  end.
  rewrite F4. exists (request_init this "GET"
                        (Some {| opt_body := None;
                                 opt_params := Some
                                   [("limit", option_map PNumber (lj_limit params));
                                    ("offset", option_map PNumber (lj_offset params));
                                    ("status",
                                      match lj_status params with
                                      | Some s => if negb (s =? "all")%string
                                                  then Some (PString s) else None
                                      | None => None
                                      end);
                                    ("type", option_map PString (lj_type params))] |})).
  split; [|reflexivity].
  do 3 f_equal. unfold listJobs_query.
  destruct params as [l o s t]; cbn [lj_limit lj_offset lj_status lj_type].
  destruct l, o, s as [s|], t; cbn;
    try destruct (s =? "all")%string; reflexivity.
Qed.

Lemma entry_key (key key' : string) (v : option string) :
  key <> key' -> ~ In key (map fst (entry key' v)).
Proof.
  intros Hk. destruct v; simpl; [|tauto].
  intros [E|[]]. congruence.
Qed.

(** C5, as the code has it. A [listJobs] call whose URL parses makes one
    GET request to /v1/jobs. A status equal to "all" puts no "status" key in
    the query, and any other status is sent as it is. The type is sent as it
    is, whatever its value (the string "all" included), and is left out only
    when it is undefined. A limit and an offset are sent as their decimal
    writing. *)
Theorem listJobs_query_parameters (this : KreaClient) (params : ListJobsParams)
        (w : World (ListResponse Types.KreaJob)) :
  url_error w (baseUrl this ++ "/v1/jobs") = None ->
  exists url init,
    log (snd (listJobs this params w)) = (log w ++ [EvFetch url init])%list
    /\ href url = baseUrl this ++ "/v1/jobs"
    /\ method init = "GET"
    /\ (lj_status params = Some "all" ->
        ~ In "status" (map fst (searchParams url)))
    /\ (forall s, lj_status params = Some s -> s <> "all" ->
                  In ("status", s) (searchParams url))
    /\ (forall t, lj_type params = Some t -> In ("type", t) (searchParams url))
    /\ (lj_type params = None -> ~ In "type" (map fst (searchParams url)))
    /\ (forall n, lj_limit params = Some n ->
                  In ("limit", Js.string_of_Z n) (searchParams url))
    /\ (forall n, lj_offset params = Some n ->
                  In ("offset", Js.string_of_Z n) (searchParams url)).
Proof.
  intros H. destruct (listJobs_sends this params w H) as (init & El & Em).
  eexists _, init. split; [exact El|].
  cbn [href searchParams]. unfold listJobs_query.
  repeat split; auto.
  - intros Hs. rewrite Hs. cbn [String.eqb Ascii.eqb Bool.eqb entry].
    rewrite !map_app, !in_app_iff.
    intros [F|[F|[F|F]]]; revert F;
      try (apply entry_key; discriminate); simpl; tauto.
  - intros s Hs Hn. rewrite Hs.
    apply String.eqb_neq in Hn. rewrite Hn.
    rewrite !in_app_iff. right. right. left. simpl. auto.
  - intros t Ht. rewrite Ht.
    rewrite !in_app_iff. right. right. right. simpl. auto.
  - intros Ht. rewrite Ht. rewrite !map_app, !in_app_iff.
    intros [F|[F|[F|F]]]; revert F;
      try (apply entry_key; discriminate); simpl; tauto.
  - intros n Hn. rewrite Hn. rewrite !in_app_iff. left. simpl. auto.
  - intros n Hn. rewrite Hn. rewrite !in_app_iff. right. left. simpl. auto.
Qed.




(** On a world whose bodies are all jobs, reading them before the cast
    changes nothing: a request gives the same result. *)
Lemma request_raw_world (this : KreaClient) (method endpoint : string)
      (options : option Options) (w : World Types.KreaJob) :
  request this method endpoint options (raw_world w)
  = (raw_result (fst (request this method endpoint options w)),
     raw_world (snd (request this method endpoint options w))).
Proof.
  assert (forall err, request_catch (T:=RawJob) err
                      = raw_result (request_catch err)) as Hc.
  { intros [e|]; simpl; [|reflexivity].
    destruct (Js.name e =? "AbortError")%string; reflexivity. }
  unfold request, new_URL, fetch. cbn [raw_world url_error now wire sent log].
  destruct (url_error w (baseUrl this ++ endpoint)); cbn [fst snd].
  { rewrite Hc. reflexivity. }
  cbn [raw_exchange latency settles].
  destruct (latency (wire w (sent w)) <? Js.timer_delay (timeout this));
    cbn [fst snd].
  - destruct (settles (wire w (sent w))) as [response|err]; cbn [fst snd].
    + cbn [raw_response json ok status].
      destruct (json response) as [err|parsed]; cbn [fst snd].
      * rewrite Hc. reflexivity.
      * destruct (ok response); reflexivity.
    + rewrite Hc. reflexivity.
  - rewrite Hc. reflexivity.
Qed.

(** And so does the whole wait: the loop that reads bodies as jobs is the
    loop that reads them before the cast, run on worlds without [null]. *)
Lemma waitForJob_raw_typed (this : KreaClient) (jobId : string)
      (timeoutMs pollIntervalMs : option Z) (fuel : nat)
      (w : World Types.KreaJob) :
  waitForJob_raw fuel this jobId timeoutMs pollIntervalMs (raw_world w)
  = (raw_completion
       (fst (waitForJob fuel this jobId timeoutMs pollIntervalMs w)),
     raw_world (snd (waitForJob fuel this jobId timeoutMs pollIntervalMs w))).
Proof.
  unfold waitForJob_raw, waitForJob. cbn [Date_now].
  change (now (raw_world w)) with (now w).
  generalize (now w) as startTime.
  generalize (match timeoutMs with Some t => t | None => 120000 end) as T.
  generalize (match pollIntervalMs with Some p => p | None => 2000 end) as p.
  intros p T startTime. revert w.
  induction fuel as [|fuel IH]; intros w; [reflexivity|].
  simpl. change (now (raw_world w)) with (now w).
  destruct (now w - startTime <? T); [|reflexivity].
  unfold getJob_raw, getJob, get. rewrite request_raw_world.
  destruct (request this "GET" ("/v1/jobs/" ++ jobId) _ w) as [result w1].
  cbn [fst snd raw_result success data].
  destruct (success result); cbn [negb fst snd raw_completion];
    [|reflexivity].
  destruct (data result) as [job|]; cbn [option_map fst snd raw_completion];
    [|reflexivity].
  destruct (is_terminal (Types.status job)); [reflexivity|].
  exact (IH (snd (sleep p w1))).
Qed.


Lemma http_error_message_nonempty {T : Type} (response : Response T)
      (parsed : Parsed T) :
  http_error_message response parsed <> "".
Proof.
  unfold http_error_message.
  destruct (Net.message parsed) as [m|]; [|discriminate].
  destruct (m =? "")%string eqn:E; [discriminate|].
  apply String.eqb_neq. exact E.
Qed.


(** A submission that succeeds made exactly the request [submit_fetch]. *)
Lemma post_success_world (this : KreaClient) (path : string)
      (params : list (string * Js.Value)) (w : World Types.KreaJob) :
  success (fst (post this path (Some (with_webhook this params)) w)) = true ->
  let w' := snd (post this path (Some (with_webhook this params)) w) in
  sent w' = S (sent w)
  /\ log w' = (log w ++ [submit_fetch this path params])%list.
Proof.
  intros H. unfold post in *.
  apply request_success_url in H.
  rewrite (request_sent _ _ _ _ _ H).
  match goal with
  | |- context [fetch ?u ?i ?a w] =>
      destruct (fetch_world u i a w) as (_ & _ & F3 & F4 & _)
  end.
  split; assumption.
Qed.

(** C6. A generation submitted with [waitForCompletion] true, whose
    submission succeeded, waits for the job it was given with a budget of
    120000 ms when it is an image and of 300000 ms when it is a video, and
    sleeps 2000 ms between polls. In a run whose polls all read a status
    that is not terminal, it polls every time the loop condition finds less
    than that budget elapsed since the submission returned, with a sleep of
    2000 ms after each poll, and returns the TIMEOUT result that names the
    budget at the first evaluation that finds the budget used up. These are
    the defaults of [waitForJob], which [generateImage] calls with the job id
    alone, and the timeout that [generateVideo] passes. *)
Theorem generation_wait_budgets (video : bool) (fuel : nat)
        (this : KreaClient) (endpoint : string)
        (params : list (string * Js.Value)) (w : World Types.KreaJob)
        (submitted : Types.KreaJob) :
  let generate := if video then generateVideo else generateImage in
  let budget := if video then 300000 else 120000 in
  let path := (if video then "/v1/video/" else "/v1/image/") ++ endpoint in
  let submission := post this path (Some (with_webhook this params)) w in
  let jobId := Types.id submitted in
  let after n := world_at this jobId 2000 n (snd submission) in
  success (fst submission) = true ->
  data (fst submission) = Some submitted ->
  (forall k, 0 <= latency (wire w k)) ->
  (forall n, now (after n) - now (after 0%nat) < budget ->
             observes_pending this jobId (after n) = true) ->
  (Z.to_nat budget < fuel)%nat ->
  exists n,
    generate fuel this endpoint params (Some true) w
    = (Some (Js.Returned
               {| success := false;
                  data := None;
                  error :=
                    Some {| code := "TIMEOUT";
                            message :=
                              "Job " ++ jobId ++ " did not complete within "
                              ++ Js.string_of_Z budget ++ "ms";
                            details := None |} |}),
       after n)
    /\ budget <= now (after n) - now (after 0%nat)
    /\ (forall k, (k < n)%nat -> now (after k) - now (after 0%nat) < budget)
    /\ log (after n)
       = (log w ++ submit_fetch this path params
                :: polls this jobId 2000 n)%list
    /\ generate fuel this endpoint params (Some true) w
       = waitForJob fuel this jobId (Some budget) (Some 2000) (after 0%nat).
Proof.
  intros generate budget path submission jobId after Hs Hd Hlat Hpend Hfuel.
  assert (wire (snd submission) = wire w) as Hw.
  { subst submission. unfold post.
    destruct (request_world this "POST" path
                (Some {| opt_body := Some (with_webhook this params);
                         opt_params := None |}) w) as (_ & F & _).
    exact F. }
  assert (forall k, 0 <= latency (wire (snd submission) k)) as Hlat'
      by (intros k; rewrite Hw; apply Hlat).
  destruct (loop_reaches_deadline this jobId budget 2000 (snd submission)
                                  Hlat' Hpend fuel 0 eq_refl)
    as (n & E & Hout & Hp).
  { cbn [world_at]. replace (now (snd submission) - now (snd submission))
      with 0 by lia.
    rewrite Z.sub_0_r. exact Hfuel. }
  cbn [world_at] in E.
  destruct (world_at_pending _ _ _ _ _ _ _ Hp) as [_ El].
  destruct (post_success_world this path params w Hs) as [_ Pl].
  fold submission in Pl.
  assert (generate fuel this endpoint params (Some true) w
          = waitForJob fuel this jobId (Some budget) (Some 2000)
                       (snd submission)) as Eg.
  { subst generate budget path submission jobId.
    destruct video; [unfold generateVideo | unfold generateImage];
      cbv zeta;
      match goal with
      | |- context [post ?t ?p ?b w] => destruct (post t p b w) as [r w1]
      end;
      cbn [fst snd] in *; rewrite Hs, Hd; reflexivity. }
  exists n. split; [|split; [|split; [|split]]].
  - rewrite Eg. unfold waitForJob. cbn [Date_now]. exact E.
  - exact Hout.
  - intros k Hk.
    exact (pending_for_before_deadline this jobId budget 2000
             (now (snd submission)) n (snd submission) k Hp Hk).
  - change (after n) with (world_at this jobId 2000 n (snd submission)).
    rewrite El, Pl, <- app_assoc. reflexivity.
  - exact Eg.
Qed.

(** C10. Arguments of krea_delete_job or krea_delete_asset in which
    [confirm] is false, or missing and so false by the default of the
    schema, make the handler return the error response "Deletion not
    confirmed" with [isError] set, in the world it was called in: nothing
    was sent, the gateway was not called. *)
Theorem delete_tools_need_confirmation (client : KreaClient)
        (w : World Deleted)
        (job_args : Schemas.DeleteJobArgs) (job_input : Schemas.DeleteJobInput)
        (asset_args : Schemas.DeleteAssetArgs)
        (asset_input : Schemas.DeleteAssetInput) :
  Schemas.DeleteJobSchema job_args = Some job_input ->
  Schemas.dja_confirm job_args = None
  \/ Schemas.dja_confirm job_args = Some false ->
  Schemas.DeleteAssetSchema asset_args = Some asset_input ->
  Schemas.daa_confirm asset_args = None
  \/ Schemas.daa_confirm asset_args = Some false ->
  let refusal : Formatters.ToolResult unit :=
    {| Formatters.content :=
         [{| Formatters.type := "text";
             Formatters.text :=
               "❌ **Error**: Deletion not confirmed"
               ++ String "010" (String "010"
                    "💡 **Suggestion**: Set confirm=true to delete") |}];
       Formatters.structuredContent := None;
       Formatters.isError := Some true |} in
  Tools.krea_delete_job client job_input w = (Js.Returned refusal, w)
  /\ Tools.krea_delete_asset client asset_input w = (Js.Returned refusal, w).
Proof.
  intros Hj Cj Ha Ca refusal. subst refusal.
  unfold Schemas.DeleteJobSchema in Hj. unfold Schemas.DeleteAssetSchema in Ha.
  destruct (1 <=? Js.length (Schemas.dja_job_id job_args)); [|discriminate].
  destruct (1 <=? Js.length (Schemas.daa_asset_id asset_args)); [|discriminate].
  injection Hj as <-. injection Ha as <-.
  unfold Tools.krea_delete_job, Tools.krea_delete_asset.
  cbn [Schemas.confirm Schemas.asset_confirm].
  destruct Cj as [-> | ->], Ca as [-> | ->]; split; reflexivity.
Qed.

(* ========================================================================= *)
(** ** The theorems at work on concrete runs *)
(* ========================================================================= *)

(** Whether a poll reads a pending status depends on the world only through
    the verdict of [new URL] and the next exchange. *)
Lemma observes_pending_ext (this : KreaClient) (jobId : string)
      (w1 w2 : World Types.KreaJob) :
  url_error w1 = url_error w2 ->
  wire w1 (sent w1) = wire w2 (sent w2) ->
  observes_pending this jobId w1 = observes_pending this jobId w2.
Proof.
  intros H1 H2.
  unfold observes_pending, getJob, get, request, new_URL, fetch.
  rewrite H1, H2.
  destruct (url_error w2 _); [reflexivity|].
  destruct (latency (wire w2 (sent w2)) <? _); [|reflexivity].
  destruct (settles (wire w2 (sent w2))) as [response|err]; [|reflexivity].
  destruct (json response); [reflexivity|].
  destruct (ok response); reflexivity.
Qed.

(** In the world [stuck] every poll reads a pending status. *)
Lemma stuck_always_pending (n : nat) :
  observes_pending Fixtures.client "j1"
                   (world_at Fixtures.client "j1" 2000 n Fixtures.stuck)
  = true.
Proof.
  destruct (world_at_frame Fixtures.client "j1" 2000 n Fixtures.stuck)
    as [E1 E2].
  rewrite (observes_pending_ext _ _ _ Fixtures.stuck); [reflexivity|exact E1|].
  rewrite E2. reflexivity.
Qed.

(** pending, processing, failed: the third fetch delivers the failed job and
    [waitForJob] returns it with [success: true]. *)
Lemma waitForJob_returns_terminal_job_witness :
  fst (waitForJob 3 Fixtures.client "j1" (Some 120000) (Some 2000)
                  (Fixtures.two_then Types.failed))
  = Some (Js.Returned {| success := true;
                         data := Some (Fixtures.job Types.failed);
                         error := None |}).
Proof.
  refine (f_equal fst
            (waitForJob_returns_terminal_job
               Fixtures.client "j1" 120000 2000 2 0
               (Fixtures.two_then Types.failed)
               (Fixtures.job Types.failed) Types.failed _ _ _ _ _ _));
    try reflexivity.
  right. left. reflexivity.
Defined.

(** The job stays in processing; with a budget of 5000 ms the wait ends in
    the TIMEOUT result. *)
Lemma waitForJob_times_out_witness :
  fst (waitForJob (S (Z.to_nat 5000)) Fixtures.client "j1" (Some 5000)
                  (Some 2000) Fixtures.stuck)
  = Some (Js.Returned
            {| success := false;
               data := None;
               error :=
                 Some {| code := "TIMEOUT";
                         message := "Job j1 did not complete within 5000ms";
                         details := None |} |}).
Proof.
  destruct (waitForJob_times_out Fixtures.client "j1" 5000 2000
                                 (S (Z.to_nat 5000)) Fixtures.stuck)
    as (n & E & _).
  - intros k. simpl. lia.
  - intros n _. apply stuck_always_pending.
  - apply Nat.lt_succ_diag_r.
  - exact (f_equal fst E).
Defined.

(** pending, processing, then a 503: the HTTP_503 result of the third
    [getJob] is what [waitForJob] returns. *)
Lemma waitForJob_propagates_fetch_failure_witness :
  fst (waitForJob 3 Fixtures.client "j1" (Some 120000) (Some 2000)
                  Fixtures.two_then_unavailable)
  = Some (Js.Returned
            {| success := false;
               data := None;
               error := Some {| code := "HTTP_503";
                                message := "busy";
                                details := Some (Fixtures.job Types.pending) |}
            |}).
Proof.
  refine (f_equal fst
            (proj1 (waitForJob_propagates_fetch_failure
                      Fixtures.client "j1" 120000 2000 2 0
                      Fixtures.two_then_unavailable _ _ _)));
    reflexivity.
Defined.


(** A budget of 0 ms: the TIMEOUT result, and a world left untouched. *)
Lemma waitForJob_nonpositive_timeout_witness :
  waitForJob 1 Fixtures.client "j1" (Some 0) None Fixtures.stuck
  = (Some (Js.Returned
             {| success := false;
                data := None;
                error :=
                  Some {| code := "TIMEOUT";
                          message := "Job j1 did not complete within 0ms";
                          details := None |} |}),
     Fixtures.stuck).
Proof.
  apply (waitForJob_nonpositive_timeout Fixtures.client "j1" 0 0 None
                                        Fixtures.stuck).
  lia.
Defined.

(** The defaults of the list tool: status "all" is left out of the query. *)
Lemma listJobs_query_parameters_witness :
  exists url init,
    log (snd (listJobs Fixtures.client
                       {| lj_limit := Some 20; lj_offset := Some 0;
                          lj_status := Some "all"; lj_type := Some "video" |}
                       Fixtures.empty_list))
    = [EvFetch url init]
    /\ ~ In "status" (map fst (searchParams url))
    /\ In ("type", "video") (searchParams url).
Proof.
  destruct (listJobs_query_parameters
              Fixtures.client
              {| lj_limit := Some 20; lj_offset := Some 0;
                 lj_status := Some "all"; lj_type := Some "video" |}
              Fixtures.empty_list eq_refl)
    as (url & init & El & _ & _ & Hs & _ & Ht & _).
  exists url, init. split; [exact El|].
  split; [apply Hs; reflexivity | apply Ht; reflexivity].
Defined.

(** C5, the claim as stated fails: a type equal to "all" is sent as the
    literal string "all". *)
Lemma listJobs_sends_type_all :
  exists init,
    log (snd (listJobs Fixtures.client
                       {| lj_limit := Some 20; lj_offset := Some 0;
                          lj_status := Some "all"; lj_type := Some "all" |}
                       Fixtures.empty_list))
    = [EvFetch {| href := "https://api.krea.ai/v1/jobs";
                  searchParams := [("limit", "20"); ("offset", "0");
                                   ("type", "all")] |}
               init].
Proof.
  eexists. reflexivity.
Qed.



(** Where every exchange answers with a processing job, every poll reads a
    pending status. *)
Lemma processing_always_pending (w : World Types.KreaJob) (n : nat) :
  (forall s, url_error w s = None) ->
  (forall k, wire w k = Fixtures.answers Types.processing) ->
  observes_pending Fixtures.client "j1"
                   (world_at Fixtures.client "j1" 2000 n w) = true.
Proof.
  intros Hu Hw.
  destruct (world_at_frame Fixtures.client "j1" 2000 n w) as [E1 E2].
  unfold observes_pending, getJob, get, request, new_URL, fetch.
  rewrite E1, E2, Hu, Hw. reflexivity.
Qed.

(** An image whose job stays in processing: the wait gives up once 120000 ms
    have passed since the submission returned. *)
Lemma generation_wait_budgets_witness :
  exists n,
    generateImage (S (Z.to_nat 120000)) Fixtures.client "flux"
                  [("prompt", Js.Str "a cat")] (Some true) Fixtures.stuck
    = (Some (Js.Returned
               {| success := false;
                  data := None;
                  error :=
                    Some {| code := "TIMEOUT";
                            message :=
                              "Job j1 did not complete within 120000ms";
                            details := None |} |}),
       world_at Fixtures.client "j1" 2000 n
                (snd (post Fixtures.client "/v1/image/flux"
                           (Some (with_webhook Fixtures.client
                                    [("prompt", Js.Str "a cat")]))
                           Fixtures.stuck))).
Proof.
  destruct (generation_wait_budgets
              false (S (Z.to_nat 120000)) Fixtures.client "flux"
              [("prompt", Js.Str "a cat")] Fixtures.stuck
              (Fixtures.job Types.processing) eq_refl eq_refl)
    as (n & E & _).
  - intros k. simpl. lia.
  - intros n _. apply processing_always_pending; reflexivity.
  - apply Nat.lt_succ_diag_r.
  - exists n. exact E.
Defined.

(** C2, the claim as stated fails: with a budget of 5000 ms, the two polls
    that return before the deadline read pending and processing, the third
    starts 4200 ms after the start and takes 3000 ms; no terminal status was
    fetched before the deadline and 7200 ms have elapsed when the loop next
    looks, yet [waitForJob] returns the completed job with [success: true],
    not the TIMEOUT error: the clock is not read between a fetch and the
    return of its result. *)
Lemma waitForJob_returns_result_after_deadline :
  pending_for Fixtures.client "j1" (now Fixtures.late) 5000 2000 2
              Fixtures.late = true
  /\ now (world_at Fixtures.client "j1" 2000 2 Fixtures.late)
     - now Fixtures.late = 4200
  /\ fst (waitForJob 10 Fixtures.client "j1" (Some 5000) (Some 2000)
                     Fixtures.late)
     = Some (Js.Returned {| success := true;
                            data := Some (Fixtures.job Types.completed);
                            error := None |})
  /\ now (snd (waitForJob 10 Fixtures.client "j1" (Some 5000) (Some 2000)
                          Fixtures.late))
     - now Fixtures.late = 7200.
Proof.
  repeat split.
Qed.



(** [confirm] left out for the job, false for the asset. *)
Lemma delete_tools_need_confirmation_witness :
  Tools.krea_delete_job
    Fixtures.client {| Schemas.job_id := "j1"; Schemas.confirm := false |}
    Fixtures.gone
  = (Js.Returned (Formatters.formatErrorResponse
                    "Deletion not confirmed"
                    (Some "Set confirm=true to delete")),
     Fixtures.gone)
  /\ Tools.krea_delete_asset
       Fixtures.client
       {| Schemas.asset_id := "a1"; Schemas.asset_confirm := false |}
       Fixtures.gone
     = (Js.Returned (Formatters.formatErrorResponse
                       "Deletion not confirmed"
                       (Some "Set confirm=true to delete")),
        Fixtures.gone).
Proof.
  apply (delete_tools_need_confirmation
           Fixtures.client Fixtures.gone
           {| Schemas.dja_job_id := "j1"; Schemas.dja_confirm := None |}
           {| Schemas.job_id := "j1"; Schemas.confirm := false |}
           {| Schemas.daa_asset_id := "a1";
              Schemas.daa_confirm := Some false |}
           {| Schemas.asset_id := "a1"; Schemas.asset_confirm := false |});
    auto.
Defined.

(* ========================================================================= *)
(** ** Further properties of [request] *)
(* ========================================================================= *)

Lemma append_params_defined (params : Params) : forall url : URL,
  append_params url params
  = {| href := href url;
       searchParams := (searchParams url ++ defined_params params)%list |}.
Proof.
  induction params as [|[key [value|]] rest IH]; intros url.
  - simpl. rewrite app_nil_r. destruct url; reflexivity.
  - simpl. rewrite IH. cbn [href searchParams].
    rewrite <- app_assoc. reflexivity.
  - simpl. apply IH.
Qed.

Section RequestProperties.
Context {T : Type}.
Implicit Types (w : World T) (this : KreaClient).

(** X1. A request given a [params] record, and whose URL parses, makes one
    call to [fetch]; the URL it passes is the base URL followed by the
    endpoint, and its query holds one entry for each member of the record
    that is defined, in the order of the record, written with [String]:
    a member that is [undefined] is never sent. *)
Theorem request_sends_defined_params this method endpoint
        (body : option Js.Value) (params : Params) w :
  url_error w (baseUrl this ++ endpoint) = None ->
  let options := Some {| opt_body := body; opt_params := Some params |} in
  log (snd (request this method endpoint options w))
  = (log w ++ [EvFetch {| href := baseUrl this ++ endpoint;
                          searchParams := defined_params params |}
                       (request_init this method options)])%list
  /\ sent (snd (request this method endpoint options w)) = S (sent w)
  /\ forall key s,
       In (key, s) (defined_params params)
       <-> exists value, In (key, Some value) params /\ s = String_ value.
Proof.
  intros H options. subst options.
  rewrite (request_sent _ _ _ _ _ H).
  match goal with
  | |- context [fetch ?u ?i ?a w] =>
      destruct (fetch_world u i a w) as (_ & _ & F3 & F4 & _)
  end.
  rewrite F3, F4. cbn [request_url]. rewrite append_params_defined.
  repeat split; auto.
  - unfold defined_params. rewrite in_flat_map.
    intros ([k [v|]] & Hin & Hk); simpl in Hk; [|tauto].
    destruct Hk as [E|[]]. injection E as <- <-. eauto.
  - intros (value & Hin & ->). unfold defined_params. rewrite in_flat_map.
    exists (key, Some value). simpl. auto.
Qed.

Lemma request_failure_cases this method endpoint options w :
  success (fst (request this method endpoint options w)) = false ->
  exists e,
    error (fst (request this method endpoint options w)) = Some e
    /\ data (fst (request this method endpoint options w)) = None
    /\ ((code e = "TIMEOUT" /\ message e = "Request timed out"
         /\ details e = None)
        \/ (code e = "REQUEST_ERROR" /\ details e = None)
        \/ (exists (response : Response T) (parsed : Parsed T),
               ok response = false
               /\ json response = inr parsed
               /\ code e = "HTTP_" ++ Js.string_of_Z (status response)
               /\ message e <> ""
               /\ details e = Some (value parsed))).
Proof.
  assert (forall err : Js.Thrown,
             exists e, error (request_catch (T:=T) err) = Some e
                       /\ data (request_catch (T:=T) err) = None
                       /\ ((code e = "TIMEOUT"
                            /\ message e = "Request timed out"
                            /\ details e = None)
                           \/ (code e = "REQUEST_ERROR" /\ details e = None)))
    as Hcatch.
  { intros [e|]; simpl.
    - destruct (Js.name e =? "AbortError")%string; eexists; simpl; eauto 6.
    - eexists; simpl; eauto 6. }
  unfold request.
  destruct (new_URL _ w) as [err|url0]; cbn [fst].
  { intros _. destruct (Hcatch err) as (e & E1 & E2 & E3).
    exists e. tauto. }
  destruct (fetch _ _ _ w) as [settled w1].
  destruct settled as [response|err]; cbn [fst].
  2:{ intros _. destruct (Hcatch err) as (e & E1 & E2 & E3).
      exists e. tauto. }
  destruct (json response) as [err|parsed] eqn:Ej; cbn [fst].
  { intros _. destruct (Hcatch err) as (e & E1 & E2 & E3).
    exists e. tauto. }
  destruct (ok response) eqn:Eok; cbn [negb fst success]; [discriminate|].
  intros _. eexists. cbn [error data]. split; [reflexivity|].
  split; [reflexivity|]. right. right.
  exists response, parsed. cbn [code message details].
  repeat split; auto. apply http_error_message_nonempty.
Qed.

(** X2. A request that fails carries one of three kinds of error, and
    nothing else: code TIMEOUT with the message "Request timed out" and no
    details (the call was aborted); code REQUEST_ERROR with no details (any
    other exception: a URL or body that does not parse, a network failure);
    or code HTTP_<status> of a response that is not ok, with the parsed
    body as details and a message that is never empty. *)
Theorem request_failure_kinds this method endpoint options w :
  success (fst (request this method endpoint options w)) = false ->
  exists e,
    error (fst (request this method endpoint options w)) = Some e
    /\ data (fst (request this method endpoint options w)) = None
    /\ ((code e = "TIMEOUT" /\ message e = "Request timed out"
         /\ details e = None)
        \/ (code e = "REQUEST_ERROR" /\ details e = None)
        \/ (exists (response : Response T) (parsed : Parsed T),
               ok response = false
               /\ json response = inr parsed
               /\ code e = "HTTP_" ++ Js.string_of_Z (status response)
               /\ message e <> ""
               /\ details e = Some (value parsed))).
Proof.
  apply request_failure_cases.
Qed.

(** X3. A call to [fetch] that has not settled when the abort timer fires
    is given up: the request returns code TIMEOUT with the message "Request
    timed out" exactly [timeout] (as a timer delay) after it started,
    whatever the remote would have answered later. *)
Theorem request_aborts_slow_exchange this method endpoint options w :
  url_error w (baseUrl this ++ endpoint) = None ->
  Js.timer_delay (timeout this) <= latency (wire w (sent w)) ->
  fst (request this method endpoint options w)
  = {| success := false;
       data := None;
       error := Some {| code := "TIMEOUT";
                        message := "Request timed out";
                        details := None |} |}
  /\ now (snd (request this method endpoint options w))
     = now w + Js.timer_delay (timeout this).
Proof.
  intros Hu Hl. unfold request, new_URL, fetch. rewrite Hu.
  destruct (Z.ltb_spec (latency (wire w (sent w)))
                       (Js.timer_delay (timeout this))); [lia|].
  split; reflexivity.
Qed.

End RequestProperties.

Lemma request_sends_defined_params_witness :
  log (snd (listAssets Fixtures.client
                       {| la_limit := Some 5; la_offset := None;
                          la_type := Some "image" |}
                       (Fixtures.world_of
                          (fun _ => {| latency := 10;
                                       settles := Rejected Js.ThrownOther |}))))
  = [EvFetch {| href := "https://api.krea.ai/v1/assets";
                searchParams := [("limit", "5"); ("type", "image")] |}
             {| method := "GET";
                headers := [("Authorization", "Bearer key");
                            ("Content-Type", "application/json");
                            ("Accept", "application/json")];
                body := None |}].
Proof.
  exact (proj1 (request_sends_defined_params
                  Fixtures.client "GET" "/v1/assets" None
                  [("limit", Some (PNumber 5)); ("offset", None);
                   ("type", Some (PString "image"))]
                  (Fixtures.world_of
                     (fun _ => {| latency := 10;
                                  settles := Rejected Js.ThrownOther |}))
                  eq_refl)).
Defined.

Lemma request_failure_kinds_witness :
  exists e,
    error (fst (deleteJob Fixtures.client "j1" Fixtures.gone)) = Some e
    /\ data (fst (deleteJob Fixtures.client "j1" Fixtures.gone)) = None.
Proof.
  destruct (request_failure_kinds
              Fixtures.client "DELETE" "/v1/jobs/j1" None Fixtures.gone
              eq_refl)
    as (e & E & D & _).
  exists e. split; [exact E | exact D].
Defined.

Lemma request_aborts_slow_exchange_witness :
  fst (getJob Fixtures.client "j1" Fixtures.hung)
  = {| success := false;
       data := None;
       error := Some {| code := "TIMEOUT";
                        message := "Request timed out";
                        details := None |} |}
  /\ now (snd (getJob Fixtures.client "j1" Fixtures.hung)) = 121000.
Proof.
  apply (request_aborts_slow_exchange
           Fixtures.client "GET" "/v1/jobs/j1"
           (Some {| opt_body := None; opt_params := None |})
           Fixtures.hung eq_refl).
  vm_compute. discriminate.
Defined.

(* ========================================================================= *)
(** ** Further properties of the wait loop *)
(* ========================================================================= *)

Section WaitLoopProperties.
Variables (this : KreaClient) (jobId : string).
Variables (startTime timeoutMs pollIntervalMs : Z).
Implicit Types (w : World Types.KreaJob).

Local Abbreviation loop fuel w :=
  (waitForJob_loop fuel this jobId startTime timeoutMs pollIntervalMs w).

(** A result the loop returns with [success: true] carries a job whose
    status is terminal. *)
Lemma loop_success_is_terminal fuel : forall w r,
  fst (loop fuel w) = Some (Js.Returned r) ->
  success r = true ->
  exists job, data r = Some job /\ is_terminal (Types.status job) = true.
Proof.
  induction fuel as [|fuel IH]; intros w r; simpl; [discriminate|].
  destruct (now w - startTime <? timeoutMs).
  - destruct (getJob this jobId w) as [result w1].
    destruct (success result) eqn:Es; cbn [negb].
    + destruct (data result) as [job|] eqn:Ed; [|discriminate].
      destruct (is_terminal (Types.status job)) eqn:Et.
      * cbn [fst]. intros E _. injection E as <-. eauto.
      * apply IH.
    + cbn [fst]. intros E Hs. injection E as <-. congruence.
  - cbn [fst]. intros E Hs. injection E as <-. discriminate.
Qed.

(** The exchanges made by the loop, against the time left: when [f + 1]
    fetches were made, [f] timer delays fit before the deadline. *)
Lemma loop_fetch_budget fuel : forall w,
  (forall k, 0 <= latency (wire w k)) ->
  (sent w <= sent (snd (loop fuel w)))%nat
  /\ forall f, sent (snd (loop fuel w)) = (sent w + S f)%nat ->
               Z.of_nat f * Js.timer_delay pollIntervalMs
               < timeoutMs - (now w - startTime).
Proof.
  induction fuel as [|fuel IH]; intros w Hlat; simpl.
  { split; [lia|]. intros f Hf. lia. }
  destruct (Z.ltb_spec (now w - startTime) timeoutMs) as [Hin|Hout];
    cbn [snd]; [|split; [lia|intros f Hf; lia]].
  pose proof (request_world this "GET" ("/v1/jobs/" ++ jobId)
                (Some {| opt_body := None; opt_params := None |}) w) as Hw.
  fold (get this ("/v1/jobs/" ++ jobId) None w) in Hw.
  fold (getJob this jobId w) in Hw.
  pose proof (getJob_success_world this jobId w) as Hs.
  destruct (getJob this jobId w) as [result w1]. cbn [fst snd] in Hw, Hs.
  destruct Hw as (_ & Hwire & Hnow & Hsent). specialize (Hnow (Hlat _)).
  assert (sent w1 = sent w \/ sent w1 = S (sent w)) as Hs1.
  { destruct Hsent as [->|(? & ? & E & _)]; auto. }
  assert ((sent w <= sent w1)%nat
          /\ forall f, sent w1 = (sent w + S f)%nat ->
                       Z.of_nat f * Js.timer_delay pollIntervalMs
                       < timeoutMs - (now w - startTime)) as Hret.
  { split; [lia|]. intros f Hf. assert (f = 0%nat) as -> by lia. lia. }
  destruct (success result) eqn:Es; cbn [negb snd]; [|exact Hret].
  destruct (data result) as [job|]; cbn [snd]; [|exact Hret].
  destruct (is_terminal (Types.status job)); cbn [snd]; [exact Hret|].
  destruct (Hs eq_refl) as (_ & _ & Hsent1 & _).
  unfold sleep. cbn [snd].
  match goal with
  | |- context [loop fuel ?x] => set (w2 := x) in *
  end.
  assert (sent w2 = sent w1
          /\ now w2 = now w1 + Js.timer_delay pollIntervalMs
          /\ wire w2 = wire w1) as (E1 & E2 & E3) by (subst w2; auto).
  clearbody w2.
  destruct (IH w2) as [IH1 IH2].
  { rewrite E3, Hwire. exact Hlat. }
  pose proof (timer_delay_pos pollIntervalMs) as Hd.
  split; [lia|].
  intros f Hf. destruct f as [|f]; [lia|].
  specialize (IH2 f).
  assert (Z.of_nat f * Js.timer_delay pollIntervalMs
          < timeoutMs - (now w2 - startTime))
    as Hlt by (apply IH2; lia).
  rewrite Nat2Z.inj_succ. nia.
Qed.

End WaitLoopProperties.

(** X4. Whatever the run, a result that [waitForJob] returns with
    [success: true] carries a job, and the status of that job is completed,
    failed or cancelled: a caller never receives a pending or processing
    job from a wait. *)
Theorem waitForJob_success_is_terminal
        (fuel : nat) (this : KreaClient) (jobId : string)
        (timeoutMs pollIntervalMs : option Z) (w w' : World Types.KreaJob)
        (r : ApiResponse Types.KreaJob) :
  waitForJob fuel this jobId timeoutMs pollIntervalMs w
  = (Some (Js.Returned r), w') ->
  success r = true ->
  exists job,
    data r = Some job
    /\ (Types.status job = Types.completed
        \/ Types.status job = Types.failed
        \/ Types.status job = Types.cancelled).
Proof.
  unfold waitForJob. cbn [Date_now]. intros E Hs.
  apply (f_equal fst) in E. cbn [fst] in E.
  destruct (loop_success_is_terminal _ _ _ _ _ _ _ _ E Hs) as (job & Hd & Ht).
  exists job. split; [exact Hd|].
  destruct (Types.status job); try discriminate; auto.
Qed.

Lemma waitForJob_success_is_terminal_witness :
  exists job,
    data {| success := true;
            data := Some (Fixtures.job Types.cancelled);
            error := None |} = Some job
    /\ (Types.status job = Types.completed
        \/ Types.status job = Types.failed
        \/ Types.status job = Types.cancelled).
Proof.
  apply (waitForJob_success_is_terminal
           3 Fixtures.client "j1" None None
           (Fixtures.two_then Types.cancelled)
           (snd (waitForJob 3 Fixtures.client "j1" None None
                            (Fixtures.two_then Types.cancelled))));
    reflexivity.
Defined.

(** X5. The number of fetches of a wait is bounded by the ratio of the
    timeout to the poll interval: in any run whose exchanges take no
    negative time, and for any amount of fuel, when [waitForJob] has made
    [f + 1] fetches then [f] poll intervals (as timer delays) are shorter
    than [timeoutMs]. *)
Theorem waitForJob_fetch_count
        (fuel : nat) (this : KreaClient) (jobId : string)
        (timeoutMs pollIntervalMs : Z) (w : World Types.KreaJob) :
  (forall k, 0 <= latency (wire w k)) ->
  let w' := snd (waitForJob fuel this jobId (Some timeoutMs)
                            (Some pollIntervalMs) w) in
  (sent w <= sent w')%nat
  /\ forall f, sent w' = (sent w + S f)%nat ->
               Z.of_nat f * Js.timer_delay pollIntervalMs < timeoutMs.
Proof.
  intros Hlat w'. subst w'. unfold waitForJob. cbn [Date_now].
  destruct (loop_fetch_budget this jobId (now w) timeoutMs pollIntervalMs
                              fuel w Hlat) as [H1 H2].
  split; [exact H1|].
  intros f Hf. specialize (H2 f Hf). lia.
Qed.

Lemma waitForJob_fetch_count_witness :
  sent (snd (waitForJob 10 Fixtures.client "j1" (Some 5000) (Some 2000)
                        Fixtures.stuck)) = 3%nat
  /\ 2 * Js.timer_delay 2000 < 5000.
Proof.
  split; [reflexivity|].
  refine (proj2 (waitForJob_fetch_count
                   10 Fixtures.client "j1" 5000 2000 Fixtures.stuck _)
                2%nat eq_refl).
  intros k. simpl. lia.
Defined.

(** X6. Arguments that [WaitForJobSchema] accepts give [waitForJob], called
    as the krea_wait_for_job handler calls it (the timeout in seconds times
    1000, and the poll interval), a budget of 10000 to 300000 ms and an
    interval of 1000 to 10000 ms; such a wait makes at most 300 fetches when
    exchanges take no negative time. *)
Theorem wait_tool_fetch_count
        (fuel : nat) (client : KreaClient) (args : Schemas.WaitForJobArgs)
        (input : Schemas.WaitForJobInput) (w : World Types.KreaJob) :
  Schemas.WaitForJobSchema args = Some input ->
  (forall k, 0 <= latency (wire w k)) ->
  10000 <= Schemas.timeout_seconds input * 1000 <= 300000
  /\ 1000 <= Schemas.poll_interval_ms input <= 10000
  /\ (sent (snd (waitForJob fuel client (Schemas.wj_job_id input)
                            (Some (Schemas.timeout_seconds input * 1000)%Z)
                            (Some (Schemas.poll_interval_ms input)) w))
      <= sent w + 300)%nat.
Proof.
  intros Hp Hlat. unfold Schemas.WaitForJobSchema in Hp.
  match type of Hp with
  | (if ?c then _ else _) = _ => destruct c eqn:Ec; [|discriminate]
  end.
  injection Hp as <-. cbn [Schemas.timeout_seconds Schemas.poll_interval_ms
                           Schemas.wj_job_id].
  repeat (apply andb_true_iff in Ec; destruct Ec as [Ec ?]).
  set (t := match Schemas.wja_timeout_seconds args with
            | Some t => t | None => 120 end) in *.
  set (p := match Schemas.wja_poll_interval_ms args with
            | Some p => p | None => 2000 end) in *.
  assert (10 <= t <= 300 /\ 1000 <= p <= 10000) as [Ht Hq] by lia.
  split; [lia|]. split; [lia|].
  unfold waitForJob. cbn [Date_now].
  destruct (loop_fetch_budget client (Schemas.wja_job_id args) (now w)
                              (t * 1000) p fuel w Hlat) as [F1 F2].
  match goal with
  | |- (sent ?x <= _)%nat => set (w' := x) in *
  end.
  destruct (Nat.le_gt_cases (sent w') (sent w + 300)) as [|Hgt]; [assumption|].
  specialize (F2 (sent w' - sent w - 1)%nat).
  rewrite (timer_delay_id p) in F2 by lia.
  assert (Z.of_nat (sent w' - sent w - 1) * p < t * 1000 - (now w - now w))
    as Hb by (apply F2; lia).
  nia.
Qed.

Lemma wait_tool_fetch_count_witness :
  (sent (snd (waitForJob 400 Fixtures.client "j1" (Some (120 * 1000)%Z)
                         (Some 2000%Z) Fixtures.stuck))
   <= 0 + 300)%nat.
Proof.
  refine (proj2 (proj2 (wait_tool_fetch_count
                          400 Fixtures.client
                          {| Schemas.wja_job_id := "j1";
                             Schemas.wja_timeout_seconds := None;
                             Schemas.wja_poll_interval_ms := None |}
                          {| Schemas.wj_job_id := "j1";
                             Schemas.timeout_seconds := 120;
                             Schemas.poll_interval_ms := 2000 |}
                          Fixtures.stuck eq_refl _))).
  intros k. simpl. lia.
Defined.

(* ========================================================================= *)
(** ** Submissions: the webhook, the endpoint, the wait that follows *)
(* ========================================================================= *)

Lemma member_assign_same (k : string) (v : Js.Value)
      (o : list (string * Js.Value)) :
  Js.member k (Js.assign k v o) = v.
Proof.
  induction o as [|[k' v'] o IH]; simpl.
  - rewrite String.eqb_refl. reflexivity.
  - destruct (k' =? k)%string eqn:E; simpl.
    + rewrite String.eqb_refl. reflexivity.
    + rewrite E. exact IH.
Qed.

Lemma member_assign_other (k k' : string) (v : Js.Value)
      (o : list (string * Js.Value)) :
  k' <> k -> Js.member k' (Js.assign k v o) = Js.member k' o.
Proof.
  intros Hk. apply String.eqb_neq in Hk.
  induction o as [|[k0 v0] o IH]; simpl.
  - rewrite String.eqb_sym, Hk. reflexivity.
  - destruct (k0 =? k)%string eqn:E; simpl.
    + apply String.eqb_eq in E. subst k0.
      rewrite String.eqb_sym, Hk. reflexivity.
    + destruct (k0 =? k')%string; [reflexivity|exact IH].
Qed.

(** X7. The body of a submission always carries the webhook of the client
    under [webhook_url]: a [webhook_url] given in the parameters is
    replaced (by [undefined] when the client has none), every other member
    of the parameters is kept as it is, and no member is added when the key
    was already there. *)
Theorem with_webhook_overrides (this : KreaClient)
        (params : list (string * Js.Value)) :
  exists members,
    with_webhook this params = Js.Object members
    /\ Js.member "webhook_url" members
       = match webhookUrl this with
         | Some u => Js.Str u
         | None => Js.Undefined
         end
    /\ (forall k, k <> "webhook_url" ->
                  Js.member k members = Js.member k params)
    /\ (In "webhook_url" (map fst params) ->
        map fst members = map fst params).
Proof.
  eexists. split; [reflexivity|]. split; [apply member_assign_same|].
  split; [intros k Hk; apply member_assign_other; exact Hk|].
  generalize (match webhookUrl this with
              | Some u => Js.Str u
              | None => Js.Undefined
              end) as v.
  intros v. induction params as [|[k0 v0] o IH]; simpl; [tauto|].
  intros [E|Hin].
  - subst k0. reflexivity.
  - destruct (k0 =? "webhook_url")%string eqn:E; simpl.
    + apply String.eqb_eq in E. subst k0. reflexivity.
    + rewrite IH by exact Hin. reflexivity.
Qed.

(** X8. [generateFlux] submits to one of three endpoints. A model that is
    missing (or falsy) or equal to "flux" goes to flux, the model
    "flux-1.1-pro" goes to flux-11-pro, and every other model, recognised
    or not, goes to flux-11-pro-ultra: an unknown model does not fall back
    to the default model. *)
Theorem generateFlux_endpoint (fuel : nat) (this : KreaClient)
        (params : list (string * Js.Value)) (wait : option bool)
        (w : World Types.KreaJob) :
  let model := Js.member "model" params in
  exists endpoint,
    generateFlux fuel this params wait w
    = generateImage fuel this endpoint params
                    (Some match wait with Some b => b | None => false end) w
    /\ (Js.truthy model = false \/ model = Js.Str "flux" ->
        endpoint = "flux")
    /\ (model = Js.Str "flux-1.1-pro" -> endpoint = "flux-11-pro")
    /\ (Js.truthy model = true -> model <> Js.Str "flux" ->
        model <> Js.Str "flux-1.1-pro" -> endpoint = "flux-11-pro-ultra").
Proof.
  intros model. unfold generateFlux. fold model.
  eexists. split; [reflexivity|].
  unfold Js.or_else.
  split; [|split].
  - intros [Hf| ->]; [rewrite Hf|]; reflexivity.
  - intros ->. reflexivity.
  - intros Ht H1 H2. rewrite Ht.
    destruct model as [| |b|n|s|items|members]; try reflexivity.
    simpl. destruct (s =? "flux")%string eqn:E1.
    { apply String.eqb_eq in E1. congruence. }
    destruct (s =? "flux-1.1-pro")%string eqn:E2; [|reflexivity].
    apply String.eqb_eq in E2. congruence.
Qed.

(** X9. [generateNanoBanana], [generateIdeogram] and [generateSeedream]
    each know one alternative model: the alternative endpoint is chosen
    exactly when the model is that string, and any other model, missing,
    unknown or not a string, goes to the default endpoint. *)
Theorem generation_endpoint_fallback (fuel : nat) (this : KreaClient)
        (params : list (string * Js.Value)) (wait : option bool)
        (w : World Types.KreaJob) :
  let model := Js.member "model" params in
  let wait' := Some match wait with Some b => b | None => false end in
  generateNanoBanana fuel this params wait w
  = generateImage fuel this
                  (if Js.is_string model "nano-banana"
                   then "nano-banana" else "nano-banana-pro")
                  params wait' w
  /\ generateIdeogram fuel this params wait w
     = generateImage fuel this
                     (if Js.is_string model "ideogram-2.0a-turbo"
                      then "ideogram-20a-turbo" else "ideogram-30")
                     params wait' w
  /\ generateSeedream fuel this params wait w
     = generateImage fuel this
                     (if Js.is_string model "seedream-3"
                      then "seedream-3" else "seedream-4")
                     params wait' w.
Proof.
  intros model wait'. subst wait'.
  unfold generateNanoBanana, generateIdeogram, generateSeedream, Js.or_else.
  fold model.
  repeat split;
    destruct model as [| |b|n|s|items|members]; try reflexivity;
    try (destruct b; reflexivity);
    try (simpl; destruct (n =? 0); reflexivity);
    simpl; destruct (s =? "")%string eqn:E; simpl; try reflexivity;
    apply String.eqb_eq in E; subst s; reflexivity.
Qed.



(* ========================================================================= *)
(** ** Responses of the tools, the client's configuration, asset lists *)
(* ========================================================================= *)

Lemma length_nonneg (s : string) : 0 <= Js.length s.
Proof.
  induction s as [|a s IH]; cbn [Js.length]; lia.
Qed.

Lemma length_app (s1 s2 : string) :
  Js.length (s1 ++ s2) = Js.length s1 + Js.length s2.
Proof.
  induction s1 as [|a s1 IH]; cbn [append Js.length]; [reflexivity|].
  rewrite IH. lia.
Qed.

Lemma substring0_length (s : string) : forall n,
  Js.length (Js.substring0 n s) <= Z.max 0 n.
Proof.
  induction s as [|a s IH]; intros n; cbn [Js.substring0 Js.length]; [lia|].
  destruct (Js.units_of_byte a) as [|u] eqn:Eu.
  - cbn [Js.length]. rewrite Eu. specialize (IH n). lia.
  - destruct (Z.leb_spec (Z.of_nat (S u)) n).
    + cbn [Js.length]. rewrite Eu.
      specialize (IH (n - Z.of_nat (S u))). lia.
    + cbn [Js.length]. lia.
Qed.

Lemma substring0_prefix (s : string) : forall n,
  exists rest, s = Js.substring0 n s ++ rest.
Proof.
  induction s as [|a s IH]; intros n; cbn [Js.substring0];
    [exists ""; reflexivity|].
  destruct (Js.units_of_byte a) as [|u].
  - destruct (IH n) as [rest E]. exists rest.
    cbn [append]. f_equal. exact E.
  - destruct (Z.of_nat (S u) <=? n).
    + destruct (IH (n - Z.of_nat (S u))) as [rest E].
      exists rest. cbn [append]. f_equal. exact E.
    + exists (String a s). reflexivity.
Qed.

Lemma truncateText_length (text : string) (limit : Z) :
  51 <= limit -> Js.length (Formatters.truncateText text limit) <= limit.
Proof.
  intros Hl. unfold Formatters.truncateText.
  destruct (Z.leb_spec (Js.length text) limit); [assumption|].
  rewrite length_app.
  pose proof (substring0_length text (limit - 100)).
  change (Js.length (String "010" (String "010"
            "... [Truncated. Use pagination for more results.]"))) with 51.
  lia.
Qed.

(** X11. With a limit of at least 51, [truncateText] never returns more
    than [limit] UTF-16 code units. A text within the limit is returned as
    it is; a longer one becomes a prefix of the text, of at most
    [limit - 100] units, followed by the truncation marker. *)
Theorem truncateText_fits (text : string) (limit : Z) :
  51 <= limit ->
  Js.length (Formatters.truncateText text limit) <= limit
  /\ (Js.length text <= limit -> Formatters.truncateText text limit = text)
  /\ (limit < Js.length text ->
      exists kept rest,
        text = kept ++ rest
        /\ Js.length kept <= Z.max 0 (limit - 100)
        /\ Formatters.truncateText text limit = kept ++ truncation_marker).
Proof.
  intros Hl. split; [apply truncateText_length; exact Hl|].
  unfold Formatters.truncateText.
  destruct (Z.leb_spec (Js.length text) limit); split; try lia; auto.
  intros _. destruct (substring0_prefix text (limit - 100)) as [rest E].
  exists (Js.substring0 (limit - 100) text), rest.
  split; [exact E|]. split; [apply substring0_length|reflexivity].
Qed.

Lemma truncateText_fits_witness :
  Js.length (Formatters.truncateText
               "0123456789012345678901234567890123456789012345678901234567890123456789"
               60) <= 60.
Proof.
  apply (truncateText_fits
           "0123456789012345678901234567890123456789012345678901234567890123456789"
           60).
  lia.
Defined.

(** X12. Every response built by [formatTextResponse] holds exactly one
    item, of type "text", whose text is at most CHARACTER_LIMIT (10000)
    UTF-16 code units long, carries the structured data it was given, and
    is not marked as an error. *)
Theorem formatTextResponse_bounded (D : Type) (text : string)
        (data : option D) :
  exists item,
    Formatters.content (Formatters.formatTextResponse text data) = [item]
    /\ Formatters.type item = "text"
    /\ Js.length (Formatters.text item) <= 10000
    /\ Formatters.structuredContent (Formatters.formatTextResponse text data)
       = data
    /\ Formatters.isError (Formatters.formatTextResponse text data) = None.
Proof.
  eexists. split; [reflexivity|]. cbn.
  repeat split. apply truncateText_length. unfold Types.CHARACTER_LIMIT. lia.
Qed.

Lemma strip_trailing_slash_app (u : string) :
  Js.strip_trailing_slash (u ++ "/") = u.
Proof.
  induction u as [|a u IH]; [reflexivity|].
  change (String a u ++ "/")%string with (String a (u ++ "/")).
  destruct (u ++ "/")%string as [|b v] eqn:E.
  - destruct u; discriminate.
  - change (Js.strip_trailing_slash (String a (String b v)))
      with (String a (Js.strip_trailing_slash (String b v))).
    rewrite IH. reflexivity.
Qed.

Lemma strip_trailing_slash_none (u : string) :
  (forall v, u <> v ++ "/") -> Js.strip_trailing_slash u = u.
Proof.
  induction u as [|a u IH]; intros H; [reflexivity|].
  destruct u as [|b v].
  - simpl. destruct (Ascii.eqb_spec a "/"); [|reflexivity].
    subst a. exfalso. apply (H ""). reflexivity.
  - change (Js.strip_trailing_slash (String a (String b v)))
      with (String a (Js.strip_trailing_slash (String b v))).
    rewrite IH; [reflexivity|].
    intros v' E. apply (H (String a v')). simpl. congruence.
Qed.

(** X13. The constructor normalises its configuration. The request timeout
    is never 0 (a missing or zero timeout becomes 120000). A base URL
    written with one trailing slash loses exactly that slash, one without a
    trailing slash is kept as it is, and a missing or empty one becomes
    https://api.krea.ai; the key and the webhook are taken as given. *)
Theorem new_KreaClient_normalises (config : KreaClientConfig) :
  timeout (new_KreaClient config) <> 0
  /\ (forall t, cfg_timeout config = Some t -> t <> 0 ->
                timeout (new_KreaClient config) = t)
  /\ (forall u, cfg_baseUrl config = Some (u ++ "/") ->
                baseUrl (new_KreaClient config) = u)
  /\ (forall u, cfg_baseUrl config = Some u -> u <> "" ->
                (forall v, u <> v ++ "/") ->
                baseUrl (new_KreaClient config) = u)
  /\ (cfg_baseUrl config = None \/ cfg_baseUrl config = Some "" ->
      baseUrl (new_KreaClient config) = "https://api.krea.ai")
  /\ apiKey (new_KreaClient config) = cfg_apiKey config
  /\ webhookUrl (new_KreaClient config) = cfg_webhookUrl config.
Proof.
  unfold new_KreaClient. cbn [timeout baseUrl apiKey webhookUrl].
  repeat split.
  - destruct (cfg_timeout config) as [t|]; [|discriminate].
    destruct (Z.eqb_spec t 0); [discriminate|assumption].
  - intros t -> Ht. destruct (Z.eqb_spec t 0); [contradiction|reflexivity].
  - intros u ->.
    destruct (u ++ "/" =? "")%string eqn:E.
    + apply String.eqb_eq in E. destruct u; discriminate.
    + apply strip_trailing_slash_app.
  - intros u -> Hu Hs. apply String.eqb_neq in Hu. rewrite Hu.
    apply strip_trailing_slash_none. exact Hs.
  - intros [-> | ->]; reflexivity.
Qed.

Lemma get_log {T : Type} (this : KreaClient) (endpoint : string)
      (params : Params) (w : World T) :
  url_error w (baseUrl this ++ endpoint) = None ->
  log (snd (get this endpoint (Some params) w))
  = (log w ++ [EvFetch {| href := baseUrl this ++ endpoint;
                          searchParams := defined_params params |}
                       (request_init this "GET"
                          (Some {| opt_body := None;
                                   opt_params := Some params |}))])%list.
Proof.
  intros H. unfold get. rewrite (request_sent _ _ _ _ _ H).
  match goal with
  | |- context [fetch ?u ?i ?a w] =>
      destruct (fetch_world u i a w) as (_ & _ & _ & F4 & _)
  end.
  rewrite F4. cbn [request_url]. rewrite append_params_defined. reflexivity.
Qed.

(** X14. A [listAssets] call whose URL parses makes one GET request to
    /v1/assets. A type equal to "all", like a missing one, puts no "type"
    key in the query; any other type is sent as it is. *)
Theorem listAssets_query_parameters (this : KreaClient)
        (params : ListAssetsParams) (w : World (ListResponse KreaAsset)) :
  url_error w (baseUrl this ++ "/v1/assets") = None ->
  exists url init,
    log (snd (listAssets this params w)) = (log w ++ [EvFetch url init])%list
    /\ href url = baseUrl this ++ "/v1/assets"
    /\ method init = "GET"
    /\ (la_type params = Some "all" \/ la_type params = None ->
        ~ In "type" (map fst (searchParams url)))
    /\ (forall t, la_type params = Some t -> t <> "all" ->
                  In ("type", t) (searchParams url))
    /\ (forall n, la_limit params = Some n ->
                  In ("limit", Js.string_of_Z n) (searchParams url))
    /\ (forall n, la_offset params = Some n ->
                  In ("offset", Js.string_of_Z n) (searchParams url)).
Proof.
  intros H. unfold listAssets. rewrite (get_log _ _ _ _ H).
  eexists _, _. split; [reflexivity|]. cbn [href searchParams method
                                            request_init].
  destruct params as [l o t]. cbn [la_limit la_offset la_type].
  repeat split.
  - intros [-> | ->]; destruct l, o; simpl; intuition discriminate.
  - intros t' -> Ht. apply String.eqb_neq in Ht.
    destruct l, o; simpl; rewrite Ht; simpl; auto.
  - intros n ->. simpl. auto.
  - intros n ->. destruct l; simpl; auto.
Qed.

Lemma listAssets_query_parameters_witness :
  exists url init,
    log (snd (listAssets Fixtures.client
                         {| la_limit := Some 20; la_offset := Some 0;
                            la_type := Some "all" |}
                         (Fixtures.world_of
                            (fun _ => {| latency := 10;
                                         settles := Rejected Js.ThrownOther |}))))
    = [EvFetch url init]
    /\ ~ In "type" (map fst (searchParams url)).
Proof.
  destruct (listAssets_query_parameters
              Fixtures.client
              {| la_limit := Some 20; la_offset := Some 0;
                 la_type := Some "all" |}
              (Fixtures.world_of
                 (fun _ => {| latency := 10;
                              settles := Rejected Js.ThrownOther |}))
              eq_refl)
    as (url & init & El & _ & _ & Ht & _).
  exists url, init. split; [exact El|]. apply Ht. left. reflexivity.
Defined.



(* ========================================================================= *)
(** ** Failed waits and the spacing of polls *)
(* ========================================================================= *)

Lemma loop_failure_origin (this : KreaClient) (jobId : string)
      (startTime timeoutMs pollIntervalMs : Z) (fuel : nat) :
  forall (w : World Types.KreaJob) r,
    fst (waitForJob_loop fuel this jobId startTime timeoutMs pollIntervalMs w)
    = Some (Js.Returned r) ->
    success r = false ->
    r = wait_timed_out jobId timeoutMs
    \/ exists w0, r = fst (getJob this jobId w0).
Proof.
  induction fuel as [|fuel IH]; intros w r; simpl; [discriminate|].
  destruct (now w - startTime <? timeoutMs).
  - destruct (getJob this jobId w) as [result w1] eqn:Eg.
    destruct (success result) eqn:Es; cbn [negb].
    + destruct (data result) as [job|]; [|discriminate].
      destruct (is_terminal (Types.status job)).
      * cbn [fst]. intros E Hs. injection E as <-. congruence.
      * apply IH.
    + cbn [fst]. intros E _. injection E as <-.
      right. exists w. rewrite Eg. reflexivity.
  - cbn [fst]. intros E _. injection E as <-. auto.
Qed.

(** X16. A wait that fails says why. Its error has code TIMEOUT, with the
    message of the wait's own deadline or the message "Request timed out"
    of an aborted poll (the code alone does not tell the two apart), or
    code REQUEST_ERROR, or code HTTP_<status> with a message that is not
    empty; and it carries no data. *)
Theorem waitForJob_failure_kinds
        (fuel : nat) (this : KreaClient) (jobId : string)
        (timeoutMs pollIntervalMs : Z) (w w' : World Types.KreaJob)
        (r : ApiResponse Types.KreaJob) :
  waitForJob fuel this jobId (Some timeoutMs) (Some pollIntervalMs) w
  = (Some (Js.Returned r), w') ->
  success r = false ->
  exists e,
    error r = Some e
    /\ data r = None
    /\ ((code e = "TIMEOUT"
         /\ (message e = "Job " ++ jobId ++ " did not complete within "
                         ++ Js.string_of_Z timeoutMs ++ "ms"
             \/ message e = "Request timed out"))
        \/ code e = "REQUEST_ERROR"
        \/ (exists status, code e = "HTTP_" ++ Js.string_of_Z status
                           /\ message e <> "")).
Proof.
  unfold waitForJob. cbn [Date_now]. intros E Hs.
  apply (f_equal fst) in E. cbn [fst] in E.
  destruct (loop_failure_origin _ _ _ _ _ _ _ _ E Hs) as [->|[w0 ->]].
  - eexists. split; [reflexivity|]. split; [reflexivity|]. left. cbn. auto.
  - unfold getJob, get in *.
    destruct (request_failure_cases _ _ _ _ _ Hs)
      as (e & E1 & E2 & [(C & M & _)|[(C & _)|(resp & p & _ & _ & C & M & _)]]);
      exists e; (split; [exact E1|]); (split; [exact E2|]); eauto 6.
Qed.

Lemma waitForJob_failure_kinds_witness :
  exists e,
    error (wait_timed_out "j1" 5000) = Some e
    /\ data (wait_timed_out "j1" 5000) = None
    /\ ((code e = "TIMEOUT"
         /\ (message e = "Job j1 did not complete within 5000ms"
             \/ message e = "Request timed out"))
        \/ code e = "REQUEST_ERROR"
        \/ (exists status, code e = "HTTP_" ++ Js.string_of_Z status
                           /\ message e <> "")).
Proof.
  apply (waitForJob_failure_kinds
           10 Fixtures.client "j1" 5000 2000 Fixtures.stuck
           (snd (waitForJob 10 Fixtures.client "j1" (Some 5000) (Some 2000)
                            Fixtures.stuck)));
    reflexivity.
Defined.

Lemma loop_log_shape (this : KreaClient) (jobId : string)
      (startTime timeoutMs pollIntervalMs : Z) (fuel : nat) :
  forall w : World Types.KreaJob,
    (forall k, 0 <= latency (wire w k)) ->
    let w' := snd (waitForJob_loop fuel this jobId startTime timeoutMs
                                   pollIntervalMs w) in
    exists n tail,
      log w' = (log w ++ polls this jobId pollIntervalMs n ++ tail)%list
      /\ (tail = [] \/ tail = [poll_fetch this jobId])
      /\ now w + Z.of_nat n * Js.timer_delay pollIntervalMs <= now w'.
Proof.
  assert (forall w : World Types.KreaJob,
             exists n tail,
               log w = (log w ++ polls this jobId pollIntervalMs n ++ tail)%list
               /\ (tail = [] \/ tail = [poll_fetch this jobId])
               /\ now w + Z.of_nat n * Js.timer_delay pollIntervalMs <= now w)
    as Hstay.
  { intros w. exists 0%nat, []. simpl. rewrite app_nil_r.
    repeat split; auto; lia. }
  induction fuel as [|fuel IH]; intros w Hlat; simpl; [apply Hstay|].
  destruct (now w - startTime <? timeoutMs); cbn [snd]; [|apply Hstay].
  assert ((snd (getJob this jobId w) = w
           /\ success (fst (getJob this jobId w)) = false)
          \/ (log (snd (getJob this jobId w))
              = (log w ++ [poll_fetch this jobId])%list
              /\ now w <= now (snd (getJob this jobId w))
              /\ wire (snd (getJob this jobId w)) = wire w)) as Hg.
  { destruct (url_error w (baseUrl this ++ "/v1/jobs/" ++ jobId))
      as [err|] eqn:Eu.
    - left. unfold getJob, get. rewrite (request_bad_url _ _ _ _ _ _ Eu).
      split; [reflexivity|apply request_catch_fails].
    - right. unfold getJob, get. rewrite (request_sent _ _ _ _ _ Eu).
      match goal with
      | |- context [fetch ?u ?i ?a w] =>
          destruct (fetch_world u i a w) as (_ & F2 & _ & F4 & F5)
      end.
      repeat split; auto. }
  destruct (getJob this jobId w) as [result w1]. cbn [fst snd] in Hg.
  destruct Hg as [[-> Hf]|(Hl & Hn & Hw)].
  { rewrite Hf. cbn [negb snd]. apply Hstay. }
  assert (exists n tail,
             log w1 = (log w ++ polls this jobId pollIntervalMs n ++ tail)%list
             /\ (tail = [] \/ tail = [poll_fetch this jobId])
             /\ now w + Z.of_nat n * Js.timer_delay pollIntervalMs <= now w1)
    as Hret.
  { exists 0%nat, [poll_fetch this jobId]. simpl.
    repeat split; auto; lia. }
  destruct (success result); cbn [negb snd]; [|exact Hret].
  destruct (data result) as [job|]; cbn [snd]; [|exact Hret].
  destruct (is_terminal (Types.status job)); cbn [snd]; [exact Hret|].
  unfold sleep.
  match goal with
  | |- context [waitForJob_loop fuel _ _ _ _ _ ?x] => set (w2 := x) in *
  end.
  assert (log w2 = (log w1 ++ [EvSleep pollIntervalMs])%list
          /\ now w2 = now w1 + Js.timer_delay pollIntervalMs
          /\ wire w2 = wire w1) as (E1 & E2 & E3) by (subst w2; auto).
  clearbody w2.
  destruct (IH w2) as (n & tail & Il & It & In').
  { intros k. rewrite E3, Hw. apply Hlat. }
  exists (S n), tail. split; [|split; [exact It|]].
  - rewrite Il, E1, Hl, <- !app_assoc. reflexivity.
  - rewrite Nat2Z.inj_succ. lia.
Qed.

(** X17. [waitForJob] never makes two fetches without a sleep of
    [pollIntervalMs] between them. Whatever the run and however it ends,
    what it adds to the log is some number [n] of pairs (a fetch of the
    job, then a sleep of [pollIntervalMs]) followed by at most one more
    fetch; and when exchanges take no negative time, the wait has lasted at
    least [n] poll intervals (as timer delays). *)
Theorem waitForJob_polls_are_spaced
        (fuel : nat) (this : KreaClient) (jobId : string)
        (timeoutMs pollIntervalMs : Z) (w : World Types.KreaJob) :
  (forall k, 0 <= latency (wire w k)) ->
  let w' := snd (waitForJob fuel this jobId (Some timeoutMs)
                            (Some pollIntervalMs) w) in
  exists n tail,
    log w' = (log w ++ polls this jobId pollIntervalMs n ++ tail)%list
    /\ (tail = [] \/ tail = [poll_fetch this jobId])
    /\ now w + Z.of_nat n * Js.timer_delay pollIntervalMs <= now w'.
Proof.
  intros Hlat. unfold waitForJob. cbn [Date_now].
  apply loop_log_shape. exact Hlat.
Qed.

Lemma waitForJob_polls_are_spaced_witness :
  exists n tail,
    log (snd (waitForJob 10 Fixtures.client "j1" (Some 5000) (Some 2000)
                         Fixtures.stuck))
    = ([] ++ polls Fixtures.client "j1" 2000 n ++ tail)%list
    /\ (tail = [] \/ tail = [poll_fetch Fixtures.client "j1"])
    /\ now Fixtures.stuck + Z.of_nat n * Js.timer_delay 2000
       <= now (snd (waitForJob 10 Fixtures.client "j1" (Some 5000)
                               (Some 2000) Fixtures.stuck)).
Proof.
  apply (waitForJob_polls_are_spaced
           10 Fixtures.client "j1" 5000 2000 Fixtures.stuck).
  intros k. simpl. lia.
Defined.
